(** * Amberstone client risk profiler: the scoring engine of [app.py]

    A shallow embedding of [compute_results] and of the tables it reads
    ([LIKERT_TO_NUM], [ITEMS], [MAX_POLICY], [BAND_ORDER], the five capacity
    score tables, [CAPACITY_MAX_BAND]) together with the properties of the
    engine.  Python values are modelled as follows:

    - [str] as [string], compared with [String.eqb];
    - [int] as [Z];
    - [float] as the binary64 instance of [spec_float], the quotient and the
      product being the correctly rounded IEEE operations;
    - a [dict] literal as an association list read with [dict_get], which
      raises [KeyError] on a missing key;
    - a [list] read by position with [list_get] ([IndexError]) and searched
      with [list_index] ([ValueError]);
    - an exception as the left injection of [result]. *)

From Stdlib Require Import ZArith List Ascii String Bool Lia SpecFloat DecimalString.
Import ListNotations.

Open Scope string_scope.
Open Scope list_scope.
Open Scope Z_scope.

(** ** Python runtime fragments *)

Inductive exn : Type :=
| KeyError (key : string)
| IndexError
| ValueError (what : string)
| OverflowError
| ZeroDivisionError.

Definition result (A : Type) : Type := (exn + A)%type.

Definition OK {A} (a : A) : result A := inr a.
Definition Raise {A} (e : exn) : result A := inl e.

Definition bind {A B} (m : result A) (k : A -> result B) : result B :=
  match m with
  | inl e => inl e
  | inr a => k a
  end.

Notation "x <- m ;; k" := (bind m (fun x => k))
  (at level 61, m at next level, right associativity).

(** [d[k]] on a dict literal. *)
Fixpoint dict_get {V} (d : list (string * V)) (k : string) : result V :=
  match d with
  | [] => Raise (KeyError k)
  | (k', v) :: d' => if String.eqb k k' then OK v else dict_get d' k
  end.

(** [l[i]], negative positions counting from the end. *)
Definition list_get {A} (l : list A) (i : Z) : result A :=
  let j := if i <? 0 then i + Z.of_nat (List.length l) else i in
  if j <? 0 then Raise IndexError
  else match nth_error l (Z.to_nat j) with
       | Some x => OK x
       | None => Raise IndexError
       end.

(** [l.index(x)]. *)
Fixpoint list_index (l : list string) (x : string) : result Z :=
  match l with
  | [] => Raise (ValueError x)
  | y :: l' =>
      if String.eqb y x then OK 0
      else i <- list_index l' x ;; OK (i + 1)
  end.

(** [x in l]. *)
Definition list_mem (x : string) (l : list string) : bool :=
  existsb (String.eqb x) l.

(** [sum(l)]. *)
Definition py_sum (l : list Z) : Z := fold_left Z.add l 0.

(** *** binary64 arithmetic *)

Definition prec : Z := 53.
Definition emax : Z := 1024.

Definition float := spec_float.

(** [float(n)] for an [int] that fits (rounded to nearest otherwise). *)
Definition float_of_int (n : Z) : float := binary_normalize prec emax n 0 false.

(** [a / b] on two [int]s: the correctly rounded quotient. *)
Definition int_truediv (a b : Z) : result float :=
  if b =? 0 then Raise ZeroDivisionError
  else OK (SFdiv prec emax (float_of_int a) (float_of_int b)).

(** [x * n] for a [float] and an [int]. *)
Definition float_mul_int (x : float) (n : Z) : float :=
  SFmul prec emax x (float_of_int n).

(** Nearest integer of the rational [n / d], [d > 0], ties to the even one. *)
Definition round_half_even (n d : Z) : Z :=
  let q := n / d in
  let r := n mod d in
  match 2 * r ?= d with
  | Lt => q
  | Gt => q + 1
  | Eq => if Z.even q then q else q + 1
  end.

(** [round(x)] with one argument: the nearest [int], ties to even. *)
Definition py_round (x : float) : result Z :=
  match x with
  | S754_zero _ => OK 0
  | S754_infinity _ => Raise OverflowError
  | S754_nan => Raise (ValueError "cannot convert float NaN to integer")
  | S754_finite s m e =>
      let mag :=
        match e with
        | Zneg p => round_half_even (Zpos m) (2 ^ Zpos p)
        | _ => Zpos m * 2 ^ e
        end in
      OK (if s then - mag else mag)
  end.

(** ** Core logic data *)

Definition LIKERT : list string :=
  ["Strongly agree"; "Agree"; "No strong opinion"; "Disagree"; "Strongly disagree"].

Definition LIKERT_TO_NUM : list (string * Z) :=
  [ ("Strongly disagree", 1);
    ("Disagree", 2);
    ("No strong opinion", 3);
    ("Agree", 4);
    ("Strongly agree", 5) ].

(** Each statement with its [is_normal] tag, as the scoring loop reads it. *)
Definition ITEMS : list (string * bool) :=
  [ ("People who know me would describe me as cautious with money.", false);
    ("I’m comfortable investing in assets that can fall in value as well as rise (e.g., equities).", true);
    ("I usually prefer safer options even if that reduces long-term return potential.", false);
    ("I tend to take a long time to decide on investment choices.", false);
    ("I see financial risk more as an opportunity than a danger.", true);
    ("I generally prefer cash deposits over market-based investments.", false);
    ("I find investing concepts fairly easy to understand.", true);
    ("I’m willing to accept meaningful ups and downs to pursue higher returns.", true);
    ("I have limited experience with funds, shares, or market investing.", false);
    ("I often feel anxious about investment decisions after I make them.", false);
    ("I’d rather accept higher investment risk than simply save more to reach my goals.", true);
    ("I’m not comfortable with the short-term swings that markets can experience.", false) ].

Definition category_from_score (score_0_100 : Z) : string :=
  if score_0_100 <=? 25 then "Very Cautious (0–25)"
  else if score_0_100 <=? 33 then "Cautious (26–33)"
  else if score_0_100 <=? 44 then "Moderately Cautious (34–44)"
  else if score_0_100 <=? 56 then "Balanced (45–56)"
  else if score_0_100 <=? 67 then "Moderately Adventurous (57–67)"
  else if score_0_100 <=? 79 then "Adventurous (68–79)"
  else "Very Adventurous (80–100)".

Record Limits : Type := mkLimits {
  max_equity : Z;
  max_sukuk : Z;
  max_alternatives : Z
}.

Definition MAX_POLICY : list (string * Limits) :=
  [ ("Very Cautious (0–25)", mkLimits 0 100 0);
    ("Cautious (26–33)", mkLimits 20 80 0);
    ("Moderately Cautious (34–44)", mkLimits 30 70 0);
    ("Balanced (45–56)", mkLimits 40 60 0);
    ("Moderately Adventurous (57–67)", mkLimits 60 35 5);
    ("Adventurous (68–79)", mkLimits 70 20 10);
    ("Very Adventurous (80–100)", mkLimits 70 0 30) ].

Definition BAND_ORDER : list string :=
  [ "Very Cautious (0–25)";
    "Cautious (26–33)";
    "Moderately Cautious (34–44)";
    "Balanced (45–56)";
    "Moderately Adventurous (57–67)";
    "Adventurous (68–79)";
    "Very Adventurous (80–100)" ].

Definition band_at_or_below (current_band max_band : string) : result string :=
  i <- list_index BAND_ORDER current_band ;;
  j <- list_index BAND_ORDER max_band ;;
  list_get BAND_ORDER (Z.min i j).

(** The dict literals that [compute_results] indexes by each capacity answer. *)
Definition EMERGENCY_POINTS : list (string * Z) :=
  [ ("< 3 months", 0); ("3–6 months", 2); ("6–12 months", 4); ("12+ months", 6) ].

Definition INCOME_POINTS : list (string * Z) :=
  [ ("Unstable/variable", 0);
    ("Somewhat stable", 2);
    ("Stable (salaried/contracted)", 4);
    ("Very stable (multiple reliable sources)", 6) ].

Definition WITHDRAWAL_POINTS : list (string * Z) :=
  [ ("Very likely", 0); ("Somewhat likely", 2); ("Unlikely", 4); ("Very unlikely", 6) ].

Definition DEBT_POINTS : list (string * Z) :=
  [ ("High / hard to service", 0); ("Moderate", 2); ("Low", 4); ("None", 6) ].

Definition DEPENDENCE_POINTS : list (string * Z) :=
  [ ("Highly dependent", 0);
    ("Somewhat dependent", 2);
    ("Not very dependent", 4);
    ("Not dependent", 6) ].

Definition CAPACITY_MAX_BAND : list (string * string) :=
  [ ("Low capacity for loss", "Moderately Cautious (34–44)");
    ("Medium capacity for loss", "Balanced (45–56)");
    ("High capacity for loss", "Very Adventurous (80–100)") ].

(** The option lists the questionnaire offers for the five capacity
    questions, lowest capacity first. *)
Definition EMERGENCY_OPTIONS : list string :=
  ["< 3 months"; "3–6 months"; "6–12 months"; "12+ months"].

Definition INCOME_OPTIONS : list string :=
  [ "Unstable/variable"; "Somewhat stable"; "Stable (salaried/contracted)";
    "Very stable (multiple reliable sources)" ].

Definition WITHDRAWAL_OPTIONS : list string :=
  ["Very likely"; "Somewhat likely"; "Unlikely"; "Very unlikely"].

Definition DEBT_OPTIONS : list string :=
  ["High / hard to service"; "Moderate"; "Low"; "None"].

Definition DEPENDENCE_OPTIONS : list string :=
  ["Highly dependent"; "Somewhat dependent"; "Not very dependent"; "Not dependent"].

(** ** Engine input and output *)

Record Inputs : Type := mkInputs {
  attitude_choices : list string;
  emergency_months : string;
  income_stability : string;
  withdrawal_need : string;
  debt_burden : string;
  portfolio_dependence : string;
  alt_scope_reits : bool;
  alt_scope_commodities : bool;
  alt_equities_toggle : bool;
  limited_experience_gate : bool
}.

Record CapacityInputs : Type := mkCapacityInputs {
  echo_emergency_months : string;
  echo_income_stability : string;
  echo_withdrawal_need : string;
  echo_debt_burden : string;
  echo_portfolio_dependence : string
}.

Record Results : Type := mkResults {
  risk_attitude_score : Z;
  risk_attitude_band : string;
  neutral_count : Z;
  cap_points : Z;
  capacity_band : string;
  capacity_max_allowed_band : string;
  final_band : string;
  override_applied : bool;
  base_limits : Limits;
  final_limits : Limits;
  alt_forced_zero_reasons : list string;
  flags : list string;
  alts_in_scope : list string;
  capacity_inputs : CapacityInputs
}.

(** ** [compute_results] *)

(** The three accumulators of the scoring loop. *)
Record LoopState : Type := mkLoop {
  st_neutral_count : Z;
  st_responses_raw : list Z;
  st_responses_scored : list Z
}.

(** [for (_, is_normal), choice in zip(ITEMS, inputs["attitude_choices"])]. *)
Fixpoint attitude_loop (zs : list ((string * bool) * string)) (st : LoopState)
  : result LoopState :=
  match zs with
  | [] => OK st
  | ((_, is_normal), choice) :: rest =>
      let neutral_count :=
        if String.eqb choice "No strong opinion"
        then st_neutral_count st + 1 else st_neutral_count st in
      raw <- dict_get LIKERT_TO_NUM choice ;;
      let scored := if is_normal : bool then raw else 6 - raw in
      attitude_loop rest
        (mkLoop neutral_count
                (st_responses_raw st ++ [raw])
                (st_responses_scored st ++ [scored]))
  end.

(** [round((raw_total - 12) / (60 - 12) * 100)]. *)
Definition normalise_score (raw_total : Z) : result Z :=
  q <- int_truediv (raw_total - 12) (60 - 12) ;;
  py_round (float_mul_int q 100).

(** The [if]/[elif]/[else] on [cap_points]. *)
Definition capacity_band_of (cap_points : Z) : string :=
  if cap_points <=? 10 then "Low capacity for loss"
  else if cap_points <=? 20 then "Medium capacity for loss"
  else "High capacity for loss".

(** The three conditional [append]s to [alt_forced_zero_reasons]. *)
Definition gating_reasons
  (needs_liquidity_soon low_capacity limited_experience_gate limited_experience : bool)
  : list string :=
  (if needs_liquidity_soon then ["Large withdrawal likely within 3 years"] else [])
  ++ (if low_capacity then ["Low capacity for loss"] else [])
  ++ (if limited_experience_gate && limited_experience
      then ["Client indicates limited investment experience"] else []).

(** [final_limits] from a copy of [base_limits]: alternatives zeroed when a
    reason fired, the removed amount moved to sukuk. *)
Definition gate_limits (base_limits : Limits) (alt_forced_zero_reasons : list string)
  : Limits :=
  let final_alternatives :=
    match alt_forced_zero_reasons with
    | [] => max_alternatives base_limits
    | _ :: _ => 0
    end in
  let removed_alt := max_alternatives base_limits - final_alternatives in
  let final_sukuk :=
    if removed_alt >? 0
    then Z.min 100 (max_sukuk base_limits + removed_alt)
    else max_sukuk base_limits in
  mkLimits (max_equity base_limits) final_sukuk final_alternatives.

(** The three conditional [append]s to [flags]. *)
Definition robustness_flags
  (neutral_count risk_attitude_score raw_stmt12 : Z) (limited_experience : bool)
  : list string :=
  (if neutral_count >=? 6
   then ["Many neutral answers (6+). Consider clarifying and reassessing."] else [])
  ++ (if (risk_attitude_score >=? 68) && (raw_stmt12 >=? 4)
      then ["High score but strong discomfort with market swings—discuss suitability carefully."]
      else [])
  ++ (if (risk_attitude_score >=? 68) && limited_experience
      then ["High score but self-reported limited experience—consider education / simplification."]
      else []).

(** The three conditional [append]s to [alts_in_scope]. *)
Definition scope_text (reits commodities equities : bool) : list string :=
  (if reits then ["Public REITs"] else [])
  ++ (if commodities then ["Commodity funds"] else [])
  ++ (if equities
      then ["Selected equities treated as 'alternative-like' (internal classification)"]
      else []).

Definition compute_results (inputs : Inputs) : result Results :=
  (* Risk attitude scoring *)
  st <- attitude_loop (combine ITEMS (attitude_choices inputs)) (mkLoop 0 [] []) ;;
  let neutral_count := st_neutral_count st in
  let responses_raw := st_responses_raw st in
  let raw_total := py_sum (st_responses_scored st) in
  risk_attitude_score <- normalise_score raw_total ;;
  let risk_attitude_band := category_from_score risk_attitude_score in
  (* Capacity for loss scoring *)
  let emergency_months := emergency_months inputs in
  let income_stability := income_stability inputs in
  let withdrawal_need := withdrawal_need inputs in
  let debt_burden := debt_burden inputs in
  let portfolio_dependence := portfolio_dependence inputs in
  let cap_points := 0 in
  p <- dict_get EMERGENCY_POINTS emergency_months ;;
  let cap_points := cap_points + p in
  p <- dict_get INCOME_POINTS income_stability ;;
  let cap_points := cap_points + p in
  p <- dict_get WITHDRAWAL_POINTS withdrawal_need ;;
  let cap_points := cap_points + p in
  p <- dict_get DEBT_POINTS debt_burden ;;
  let cap_points := cap_points + p in
  p <- dict_get DEPENDENCE_POINTS portfolio_dependence ;;
  let cap_points := cap_points + p in
  let capacity_band := capacity_band_of cap_points in
  capacity_max_allowed_band <- dict_get CAPACITY_MAX_BAND capacity_band ;;
  final_band <- band_at_or_below risk_attitude_band capacity_max_allowed_band ;;
  let override_applied := negb (String.eqb final_band risk_attitude_band) in
  (* Alternatives gating *)
  raw9 <- list_get responses_raw 8 ;;
  let limited_experience := raw9 >=? 4 in
  let needs_liquidity_soon :=
    list_mem withdrawal_need ["Very likely"; "Somewhat likely"] in
  let low_capacity := String.eqb capacity_band "Low capacity for loss" in
  let limited_experience_gate := limited_experience_gate inputs in
  let alt_forced_zero_reasons :=
    gating_reasons needs_liquidity_soon low_capacity
                   limited_experience_gate limited_experience in
  base_limits <- dict_get MAX_POLICY final_band ;;
  let final_limits := gate_limits base_limits alt_forced_zero_reasons in
  (* Robustness flags *)
  raw_stmt12 <- list_get responses_raw 11 ;;
  let flags :=
    robustness_flags neutral_count risk_attitude_score raw_stmt12 limited_experience in
  (* Alternatives scope text *)
  let alts_in_scope :=
    scope_text (alt_scope_reits inputs) (alt_scope_commodities inputs)
               (alt_equities_toggle inputs) in
  OK (mkResults risk_attitude_score risk_attitude_band neutral_count
        cap_points capacity_band capacity_max_allowed_band
        final_band override_applied base_limits final_limits
        alt_forced_zero_reasons flags alts_in_scope
        (mkCapacityInputs emergency_months income_stability withdrawal_need
                          debt_burden portfolio_dependence)).

(** ** Complete inputs *)

(** Twelve selections, each one of the five Likert labels. *)
Definition likert_answers (choices : list string) : bool :=
  Nat.eqb (List.length choices) 12
  && forallb (fun c => list_mem c LIKERT) choices.

(** The questionnaire hands over twelve Likert selections and one option of
    each capacity question. *)
Definition complete (inputs : Inputs) : bool :=
  likert_answers (attitude_choices inputs)
  && list_mem (emergency_months inputs) EMERGENCY_OPTIONS
  && list_mem (income_stability inputs) INCOME_OPTIONS
  && list_mem (withdrawal_need inputs) WITHDRAWAL_OPTIONS
  && list_mem (debt_burden inputs) DEBT_OPTIONS
  && list_mem (portfolio_dependence inputs) DEPENDENCE_OPTIONS.

(** The numeric value of a Likert label, from Strongly disagree = 1 up to
    Strongly agree = 5; any other string has none and is given 0. *)
Definition likert_value (choice : string) : Z :=
  if String.eqb choice "Strongly disagree" then 1
  else if String.eqb choice "Disagree" then 2
  else if String.eqb choice "No strong opinion" then 3
  else if String.eqb choice "Agree" then 4
  else if String.eqb choice "Strongly agree" then 5
  else 0.

(** What one statement adds to the total: [r] when it is normal-tagged,
    [6 - r] when it is reverse-tagged. *)
Definition scored_value (is_normal : bool) (choice : string) : Z :=
  if is_normal then likert_value choice else 6 - likert_value choice.

Definition scored_values (zs : list ((string * bool) * string)) : list Z :=
  map (fun z => scored_value (snd (fst z)) (snd z)) zs.

Definition raw_values (zs : list ((string * bool) * string)) : list Z :=
  map (fun z => likert_value (snd z)) zs.

Definition neutral_of (zs : list ((string * bool) * string)) : Z :=
  Z.of_nat (List.length
              (filter (fun z => String.eqb (snd z) "No strong opinion") zs)).

Definition list_sum (l : list Z) : Z := fold_right Z.add 0 l.

(** The sum of the transformed values of the statements, in statement order. *)
Definition raw_total_of (choices : list string) : Z :=
  list_sum (scored_values (combine ITEMS choices)).

Definition all_likert (zs : list ((string * bool) * string)) : Prop :=
  Forall (fun z => list_mem (snd z) LIKERT = true) zs.

(** The totals a run can reach, and the check that the float computation
    agrees with exact rounding on one of them. *)
Definition totals : list Z := map Z.of_nat (seq 0 61).

Definition normalise_agrees (raw_total : Z) : bool :=
  match normalise_score raw_total with
  | inr s => s =? round_half_even ((raw_total - 12) * 100) 48
  | inl _ => false
  end.

(** Every option of a question is scored twice its position in the option
    list: 0, 2, 4, 6 from the lowest capacity to the highest. *)
Definition well_scored (options : list string) (points : list (string * Z)) : Prop :=
  forall x, list_mem x options = true ->
    exists i, list_index options x = OK i
              /\ dict_get points x = OK (2 * i) /\ 0 <= i <= 3.

(** The result the function builds from the values computed on its way. *)
Definition assemble (inputs : Inputs) (score neutral points : Z)
  (max_band final : string) (base : Limits) (raw9 raw12 : Z) : Results :=
  let capacity := capacity_band_of points in
  let reasons :=
    gating_reasons
      (list_mem (withdrawal_need inputs) ["Very likely"; "Somewhat likely"])
      (String.eqb capacity "Low capacity for loss")
      (limited_experience_gate inputs) (raw9 >=? 4) in
  mkResults score (category_from_score score) neutral points capacity
    max_band final (negb (String.eqb final (category_from_score score)))
    base (gate_limits base reasons) reasons
    (robustness_flags neutral score raw12 (raw9 >=? 4))
    (scope_text (alt_scope_reits inputs) (alt_scope_commodities inputs)
                (alt_equities_toggle inputs))
    (mkCapacityInputs (emergency_months inputs) (income_stability inputs)
       (withdrawal_need inputs) (debt_burden inputs)
       (portfolio_dependence inputs)).

(** ** Sample inputs *)

(** A client with the highest-capacity answer to every capacity question. *)
Definition best_capacity (choices : list string) (gate : bool) : Inputs :=
  mkInputs choices "12+ months" "Very stable (multiple reliable sources)"
           "Very unlikely" "None" "Not dependent" true true false gate.

Definition strongly_agree_input : Inputs :=
  best_capacity (repeat "Strongly agree" 12) true.

(** The most adventurous answers: strong agreement with every normal-tagged
    statement, strong disagreement with every reverse-tagged one. *)
Definition bold_choices : list string :=
  map (fun it : string * bool =>
         if snd it then "Strongly agree" else "Strongly disagree") ITEMS.

Definition bold_input : Inputs := best_capacity bold_choices true.

(** ** Properties of a result *)

Definition liquidity_reason : string := "Large withdrawal likely within 3 years".
Definition capacity_reason : string := "Low capacity for loss".
Definition experience_reason : string :=
  "Client indicates limited investment experience".
Definition experience_flag : string :=
  "High score but self-reported limited experience—consider education / simplification.".

(** The raw (untransformed) value of the answer at position [n], counted
    from 0. *)
Definition raw_answer (n : nat) (inputs : Inputs) : Z :=
  match nth_error (attitude_choices inputs) n with
  | Some c => likert_value c
  | None => 0
  end.

(** The limited-experience condition is "the answer at position [n] is at
    least 4": it decides the third gate together with the toggle, and the
    experience flag together with a score of 68 or more. *)
Definition limited_experience_by (n : nat) (inputs : Inputs) (r : Results) : Prop :=
  (In experience_reason (alt_forced_zero_reasons r)
   <-> limited_experience_gate inputs = true /\ 4 <= raw_answer n inputs)
  /\ (In experience_flag (flags r)
      <-> 68 <= risk_attitude_score r /\ 4 <= raw_answer n inputs).

(** How many statements are tagged each way, the total and the score. *)
Definition tagging_outcome (reverse normal : nat) (total score : Z)
  (inputs : Inputs) : Prop :=
  List.length (filter (fun it : string * bool => negb (snd it)) ITEMS) = reverse
  /\ List.length (filter (fun it : string * bool => snd it) ITEMS) = normal
  /\ raw_total_of (attitude_choices inputs) = total
  /\ exists r, compute_results inputs = OK r /\ risk_attitude_score r = score.

(** The reasons that fired, in the order liquidity, capacity, experience. *)
Definition selected_reasons (liquidity capacity experience : bool) : list string :=
  (if liquidity then [liquidity_reason] else [])
  ++ (if capacity then [capacity_reason] else [])
  ++ (if experience then [experience_reason] else []).

Definition gating_invariant (inputs : Inputs) (r : Results) : Prop :=
  (alt_forced_zero_reasons r <> [] ->
   max_alternatives (final_limits r) = 0
   /\ max_sukuk (final_limits r) =
      Z.min 100 (max_sukuk (base_limits r) + max_alternatives (base_limits r)))
  /\ (alt_forced_zero_reasons r = [] -> final_limits r = base_limits r)
  /\ exists liquidity capacity experience,
      alt_forced_zero_reasons r = selected_reasons liquidity capacity experience
      /\ (liquidity = true <->
          withdrawal_need inputs = "Very likely"
          \/ withdrawal_need inputs = "Somewhat likely")
      /\ (capacity = true <-> capacity_band r = "Low capacity for loss")
      /\ (experience = true <->
          limited_experience_gate inputs = true /\ 4 <= raw_answer 8 inputs).

(** The position of a band in the seven-band order. *)
Definition band_rank (band : string) (i : Z) : Prop :=
  list_index BAND_ORDER band = OK i.

Definition reconciled (r : Results) : Prop :=
  exists i j k,
    band_rank (risk_attitude_band r) i
    /\ band_rank (capacity_max_allowed_band r) j
    /\ band_rank (final_band r) k
    /\ k = Z.min i j
    /\ (override_applied r = true <-> final_band r <> risk_attitude_band r)
    /\ k <= i.

(** The band of a score by inclusive upper bounds. *)
Definition band_by_upper_bound (score : Z) (band : string) : Prop :=
  (score <= 25 -> band = "Very Cautious (0–25)")
  /\ (25 < score <= 33 -> band = "Cautious (26–33)")
  /\ (33 < score <= 44 -> band = "Moderately Cautious (34–44)")
  /\ (44 < score <= 56 -> band = "Balanced (45–56)")
  /\ (56 < score <= 67 -> band = "Moderately Adventurous (57–67)")
  /\ (67 < score <= 79 -> band = "Adventurous (68–79)")
  /\ (79 < score -> band = "Very Adventurous (80–100)").

Definition attitude_scored (inputs : Inputs) (r : Results) : Prop :=
  let raw_total := raw_total_of (attitude_choices inputs) in
  12 <= raw_total <= 60
  /\ risk_attitude_score r = round_half_even ((raw_total - 12) * 100) 48
  /\ 0 <= risk_attitude_score r <= 100
  /\ band_by_upper_bound (risk_attitude_score r) (risk_attitude_band r).

(** The scores of the options of one question, lowest capacity first. *)
Definition scores_in_order (options : list string) (points : list (string * Z)) : Prop :=
  map (dict_get points) options = [OK 0; OK 2; OK 4; OK 6].

Definition capacity_scored (inputs : Inputs) (r : Results) : Prop :=
  scores_in_order EMERGENCY_OPTIONS EMERGENCY_POINTS
  /\ scores_in_order INCOME_OPTIONS INCOME_POINTS
  /\ scores_in_order WITHDRAWAL_OPTIONS WITHDRAWAL_POINTS
  /\ scores_in_order DEBT_OPTIONS DEBT_POINTS
  /\ scores_in_order DEPENDENCE_OPTIONS DEPENDENCE_POINTS
  /\ (exists p1 p2 p3 p4 p5,
        dict_get EMERGENCY_POINTS (emergency_months inputs) = OK p1
        /\ dict_get INCOME_POINTS (income_stability inputs) = OK p2
        /\ dict_get WITHDRAWAL_POINTS (withdrawal_need inputs) = OK p3
        /\ dict_get DEBT_POINTS (debt_burden inputs) = OK p4
        /\ dict_get DEPENDENCE_POINTS (portfolio_dependence inputs) = OK p5
        /\ Forall (fun p => In p [0; 2; 4; 6]) [p1; p2; p3; p4; p5]
        /\ cap_points r = p1 + p2 + p3 + p4 + p5)
  /\ Z.even (cap_points r) = true
  /\ 0 <= cap_points r <= 30
  /\ (cap_points r <= 10 -> capacity_band r = "Low capacity for loss")
  /\ (10 < cap_points r <= 20 -> capacity_band r = "Medium capacity for loss")
  /\ (20 < cap_points r -> capacity_band r = "High capacity for loss")
  /\ (capacity_band r = "Low capacity for loss" ->
      capacity_max_allowed_band r = "Moderately Cautious (34–44)")
  /\ (capacity_band r = "Medium capacity for loss" ->
      capacity_max_allowed_band r = "Balanced (45–56)")
  /\ (capacity_band r = "High capacity for loss" ->
      capacity_max_allowed_band r = "Very Adventurous (80–100)").

(** The three capacity bands, lowest first. *)
Definition CAPACITY_ORDER : list string :=
  ["Low capacity for loss"; "Medium capacity for loss"; "High capacity for loss"].

(** [new] stands later than [old] in the option list of a question. *)
Definition higher_option (options : list string) (old new : string) : Prop :=
  exists i j, list_index options old = OK i /\ list_index options new = OK j /\ i < j.

Definition with_emergency_months (a : Inputs) (x : string) : Inputs :=
  mkInputs (attitude_choices a) x (income_stability a) (withdrawal_need a)
           (debt_burden a) (portfolio_dependence a) (alt_scope_reits a)
           (alt_scope_commodities a) (alt_equities_toggle a)
           (limited_experience_gate a).

Definition with_income_stability (a : Inputs) (x : string) : Inputs :=
  mkInputs (attitude_choices a) (emergency_months a) x (withdrawal_need a)
           (debt_burden a) (portfolio_dependence a) (alt_scope_reits a)
           (alt_scope_commodities a) (alt_equities_toggle a)
           (limited_experience_gate a).

Definition with_withdrawal_need (a : Inputs) (x : string) : Inputs :=
  mkInputs (attitude_choices a) (emergency_months a) (income_stability a) x
           (debt_burden a) (portfolio_dependence a) (alt_scope_reits a)
           (alt_scope_commodities a) (alt_equities_toggle a)
           (limited_experience_gate a).

Definition with_debt_burden (a : Inputs) (x : string) : Inputs :=
  mkInputs (attitude_choices a) (emergency_months a) (income_stability a)
           (withdrawal_need a) x (portfolio_dependence a) (alt_scope_reits a)
           (alt_scope_commodities a) (alt_equities_toggle a)
           (limited_experience_gate a).

Definition with_portfolio_dependence (a : Inputs) (x : string) : Inputs :=
  mkInputs (attitude_choices a) (emergency_months a) (income_stability a)
           (withdrawal_need a) (debt_burden a) x (alt_scope_reits a)
           (alt_scope_commodities a) (alt_equities_toggle a)
           (limited_experience_gate a).

(** One capacity answer is replaced by a higher-capacity option of the same
    question; nothing else changes. *)
Inductive raises_capacity (a : Inputs) : Inputs -> Prop :=
| raise_emergency (x : string) :
    higher_option EMERGENCY_OPTIONS (emergency_months a) x ->
    raises_capacity a (with_emergency_months a x)
| raise_income (x : string) :
    higher_option INCOME_OPTIONS (income_stability a) x ->
    raises_capacity a (with_income_stability a x)
| raise_withdrawal (x : string) :
    higher_option WITHDRAWAL_OPTIONS (withdrawal_need a) x ->
    raises_capacity a (with_withdrawal_need a x)
| raise_debt (x : string) :
    higher_option DEBT_OPTIONS (debt_burden a) x ->
    raises_capacity a (with_debt_burden a x)
| raise_dependence (x : string) :
    higher_option DEPENDENCE_OPTIONS (portfolio_dependence a) x ->
    raises_capacity a (with_portfolio_dependence a x).

Definition capacity_not_lower (ra rb : Results) : Prop :=
  cap_points ra <= cap_points rb
  /\ (exists u v,
        list_index CAPACITY_ORDER (capacity_band ra) = OK u
        /\ list_index CAPACITY_ORDER (capacity_band rb) = OK v
        /\ u <= v)
  /\ (exists x y,
        band_rank (capacity_max_allowed_band ra) x
        /\ band_rank (capacity_max_allowed_band rb) y
        /\ x <= y).

(** A moderate client who expects a withdrawal, and the same client after
    the withdrawal answer is raised to "Very unlikely". *)
Definition guarded_input : Inputs :=
  mkInputs bold_choices "3–6 months" "Somewhat stable" "Very likely"
           "Moderate" "Somewhat dependent" true false false true.

(** Some selection or some capacity answer is outside its enumerated set. *)
Definition out_of_enum (inputs : Inputs) : Prop :=
  (exists c, In c (attitude_choices inputs) /\ list_mem c LIKERT = false)
  \/ list_mem (emergency_months inputs) EMERGENCY_OPTIONS = false
  \/ list_mem (income_stability inputs) INCOME_OPTIONS = false
  \/ list_mem (withdrawal_need inputs) WITHDRAWAL_OPTIONS = false
  \/ list_mem (debt_burden inputs) DEBT_OPTIONS = false
  \/ list_mem (portfolio_dependence inputs) DEPENDENCE_OPTIONS = false.

(** The engine has no error class of its own: a value outside its set
    surfaces as the [KeyError] of the table lookup that misses it. *)
Definition InvalidInput (e : exn) : Prop := exists key, e = KeyError key.

Definition stray_input : Inputs :=
  best_capacity ("Maybe" :: repeat "Agree" 11) true.

(** The two inputs agree on everything but the three scope booleans. *)
Definition same_but_scope (a b : Inputs) : Prop :=
  attitude_choices a = attitude_choices b
  /\ emergency_months a = emergency_months b
  /\ income_stability a = income_stability b
  /\ withdrawal_need a = withdrawal_need b
  /\ debt_burden a = debt_burden b
  /\ portfolio_dependence a = portfolio_dependence b
  /\ limited_experience_gate a = limited_experience_gate b.

(** The two results agree on every field but [alts_in_scope]. *)
Definition same_but_alts (ra rb : Results) : Prop :=
  risk_attitude_score ra = risk_attitude_score rb
  /\ risk_attitude_band ra = risk_attitude_band rb
  /\ neutral_count ra = neutral_count rb
  /\ cap_points ra = cap_points rb
  /\ capacity_band ra = capacity_band rb
  /\ capacity_max_allowed_band ra = capacity_max_allowed_band rb
  /\ final_band ra = final_band rb
  /\ override_applied ra = override_applied rb
  /\ base_limits ra = base_limits rb
  /\ final_limits ra = final_limits rb
  /\ alt_forced_zero_reasons ra = alt_forced_zero_reasons rb
  /\ flags ra = flags rb
  /\ capacity_inputs ra = capacity_inputs rb.

Definition scope_listed (inputs : Inputs) (r : Results) : Prop :=
  alts_in_scope r =
  (if alt_scope_reits inputs then ["Public REITs"] else [])
  ++ (if alt_scope_commodities inputs then ["Commodity funds"] else [])
  ++ (if alt_equities_toggle inputs
      then ["Selected equities treated as 'alternative-like' (internal classification)"]
      else []).

(** The same answers as the bold client with the scope boxes ticked the
    other way round. *)
Definition bold_other_scope : Inputs :=
  mkInputs bold_choices "12+ months" "Very stable (multiple reliable sources)"
           "Very unlikely" "None" "Not dependent" false false true true.

Definition caps_total (limits : Limits) : Z :=
  max_equity limits + max_sukuk limits + max_alternatives limits.

Definition caps_sum_to_100 (r : Results) : Prop :=
  Forall (fun row : string * Limits => caps_total (snd row) = 100) MAX_POLICY
  /\ caps_total (base_limits r) = 100
  /\ caps_total (final_limits r) = 100
  /\ max_sukuk (base_limits r) + max_alternatives (base_limits r) <= 100
  /\ max_equity (final_limits r) = max_equity (base_limits r).


(** ** Further properties of a result *)

Definition with_attitude_choices (a : Inputs) (choices : list string) : Inputs :=
  mkInputs choices (emergency_months a) (income_stability a) (withdrawal_need a)
           (debt_burden a) (portfolio_dependence a) (alt_scope_reits a)
           (alt_scope_commodities a) (alt_equities_toggle a)
           (limited_experience_gate a).

Definition capacity_answers_valid (inputs : Inputs) : bool :=
  list_mem (emergency_months inputs) EMERGENCY_OPTIONS
  && list_mem (income_stability inputs) INCOME_OPTIONS
  && list_mem (withdrawal_need inputs) WITHDRAWAL_OPTIONS
  && list_mem (debt_burden inputs) DEBT_OPTIONS
  && list_mem (portfolio_dependence inputs) DEPENDENCE_OPTIONS.

(** At least twelve selections, the first twelve of them Likert labels, and
    capacity answers from their option lists. *)
Definition runnable (inputs : Inputs) : bool :=
  Nat.leb 12 (List.length (attitude_choices inputs))
  && forallb (fun c => list_mem c LIKERT) (firstn 12 (attitude_choices inputs))
  && capacity_answers_valid inputs.

Definition neutral_flag : string :=
  "Many neutral answers (6+). Consider clarifying and reassessing.".
Definition discomfort_flag : string :=
  "High score but strong discomfort with market swings—discuss suitability carefully.".

(** The flags raised, in the order neutral, discomfort, experience. *)
Definition selected_flags (neutral discomfort experience : bool) : list string :=
  (if neutral then [neutral_flag] else [])
  ++ (if discomfort then [discomfort_flag] else [])
  ++ (if experience then [experience_flag] else []).

Definition flags_listed (inputs : Inputs) (r : Results) : Prop :=
  exists neutral discomfort experience,
    flags r = selected_flags neutral discomfort experience
    /\ (neutral = true <-> 6 <= neutral_count r)
    /\ (discomfort = true <->
        68 <= risk_attitude_score r /\ 4 <= raw_answer 11 inputs)
    /\ (experience = true <->
        68 <= risk_attitude_score r /\ 4 <= raw_answer 8 inputs).

Definition neutral_counted (inputs : Inputs) (r : Results) : Prop :=
  neutral_count r =
  Z.of_nat (List.length
              (filter (fun c => String.eqb c "No strong opinion")
                      (attitude_choices inputs)))
  /\ 0 <= neutral_count r <= 12.

(** Who may hold alternatives at all, and what a capacity below High
    means for the caps. *)
Definition alternatives_reserved (r : Results) : Prop :=
  (0 < max_alternatives (final_limits r) <->
   57 <= risk_attitude_score r /\ 20 < cap_points r
   /\ alt_forced_zero_reasons r = [])
  /\ (cap_points r <= 20 ->
      final_limits r = base_limits r
      /\ max_alternatives (base_limits r) = 0
      /\ max_equity (base_limits r) <= 40)
  /\ (cap_points r <= 10 -> max_equity (base_limits r) <= 30)
  /\ max_equity (final_limits r) <= 70.

Definition override_rule (r : Results) : Prop :=
  (override_applied r = true <->
   (cap_points r <= 10 /\ 44 < risk_attitude_score r)
   \/ (10 < cap_points r <= 20 /\ 56 < risk_attitude_score r))
  /\ (override_applied r = true -> final_band r = capacity_max_allowed_band r)
  /\ (override_applied r = false -> final_band r = risk_attitude_band r).

Definition same_capacity_answers (a b : Inputs) : Prop :=
  emergency_months a = emergency_months b
  /\ income_stability a = income_stability b
  /\ withdrawal_need a = withdrawal_need b
  /\ debt_burden a = debt_burden b
  /\ portfolio_dependence a = portfolio_dependence b.

(** The second result is at least as adventurous as the first. *)
Definition not_more_cautious (ra rb : Results) : Prop :=
  risk_attitude_score ra <= risk_attitude_score rb
  /\ (exists i j, band_rank (risk_attitude_band ra) i
                  /\ band_rank (risk_attitude_band rb) j /\ i <= j)
  /\ (exists i j, band_rank (final_band ra) i
                  /\ band_rank (final_band rb) j /\ i <= j)
  /\ max_equity (base_limits ra) <= max_equity (base_limits rb)
  /\ max_sukuk (base_limits rb) <= max_sukuk (base_limits ra)
  /\ max_alternatives (base_limits ra) <= max_alternatives (base_limits rb).

(** The opposite Likert label: agreement and disagreement swapped. *)
Definition mirror (choice : string) : string :=
  if String.eqb choice "Strongly agree" then "Strongly disagree"
  else if String.eqb choice "Agree" then "Disagree"
  else if String.eqb choice "Disagree" then "Agree"
  else if String.eqb choice "Strongly disagree" then "Strongly agree"
  else choice.

(** Twelve valid selections cut down to the first seven. *)
Definition short_input : Inputs :=
  best_capacity (repeat "Agree" 7) true.

(** A cautious and an adventurous set of answers with the same capacity. *)
Definition timid_input : Inputs :=
  mkInputs (repeat "No strong opinion" 12) "3–6 months" "Somewhat stable"
           "Very likely" "Moderate" "Somewhat dependent" true false false true.

(** The exact score never falls when the total rises, checked on every
    pair of totals a complete input can reach. *)
Definition score_pairs_ordered : bool :=
  forallb (fun t =>
             forallb (fun u =>
                        (t <? 12) || (u <? t)
                        || (round_half_even ((t - 12) * 100) 48
                            <=? round_half_even ((u - 12) * 100) 48))
                     totals)
          totals.

(** [band_at_or_below] on any two strings: which error it raises, and the
    band it returns. *)
Definition band_meet (current_band max_band : string) : Prop :=
  (list_mem current_band BAND_ORDER = false ->
   band_at_or_below current_band max_band = Raise (ValueError current_band))
  /\ (list_mem current_band BAND_ORDER = true ->
      list_mem max_band BAND_ORDER = false ->
      band_at_or_below current_band max_band = Raise (ValueError max_band))
  /\ (list_mem current_band BAND_ORDER = true ->
      list_mem max_band BAND_ORDER = true ->
      exists i j,
        band_rank current_band i /\ band_rank max_band j
        /\ band_at_or_below current_band max_band
           = OK (if i <=? j then current_band else max_band)
        /\ band_at_or_below max_band current_band
           = band_at_or_below current_band max_band).

(** [category_from_score] on any integer, in range or not. *)
Definition category_total_order (s t : Z) : Prop :=
  (s < 0 -> category_from_score s = "Very Cautious (0–25)")
  /\ (100 < s -> category_from_score s = "Very Adventurous (80–100)")
  /\ (s <= t ->
      exists i j, band_rank (category_from_score s) i
                  /\ band_rank (category_from_score t) j /\ i <= j).

Definition mirror_scores : bool :=
  forallb (fun t =>
             (t <? 12)
             || (round_half_even ((72 - t - 12) * 100) 48
                 =? 100 - round_half_even ((t - 12) * 100) 48))
          totals.

(** ** Text wrapping

    [wrap_text_to_lines] measures text with [len], which counts code points,
    so a [str] is here the list of its code points. *)

Definition text : Type := list N.

(** The characters [str.split] and [str.strip] treat as whitespace. *)
Definition is_space (c : N) : bool :=
  (((9 <=? c) && (c <=? 13)) || ((28 <=? c) && (c <=? 32))
   || (c =? 133) || (c =? 160) || (c =? 5760)
   || ((8192 <=? c) && (c <=? 8202))
   || (c =? 8232) || (c =? 8233) || (c =? 8239) || (c =? 8287)
   || (c =? 12288))%N.

Definition py_len (s : text) : Z := Z.of_nat (List.length s).

(** [s.split()]: the maximal runs of non-whitespace, in order; [word] holds
    the run being read, last character first. *)
Fixpoint py_split_from (word : text) (s : text) : list text :=
  match s with
  | [] => match word with [] => [] | _ :: _ => [rev word] end
  | c :: s' =>
      if is_space c
      then match word with
           | [] => py_split_from [] s'
           | _ :: _ => rev word :: py_split_from [] s'
           end
      else py_split_from (c :: word) s'
  end.

Definition py_split (s : text) : list text := py_split_from [] s.

Fixpoint lstrip (s : text) : text :=
  match s with
  | [] => []
  | c :: s' => if is_space c then lstrip s' else s
  end.

(** [s.strip()]. *)
Definition py_strip (s : text) : text := rev (lstrip (rev (lstrip s))).

(** A string is true exactly when it is not empty. *)
Definition truthy (s : text) : bool :=
  match s with [] => false | _ :: _ => true end.

(** One round of the loop over the words, on [(lines, cur)]. *)
Definition wrap_step (max_chars : Z) (state : list text * text) (w : text)
  : list text * text :=
  let (lines, cur) := state in
  if py_len cur + py_len w + (if truthy cur then 1 else 0) <=? max_chars
  then (lines, py_strip (cur ++ [32%N] ++ w))
  else ((if truthy cur then lines ++ [cur] else lines), w).

(** [text or ""]. *)
Definition text_or_empty (txt : option text) : text :=
  match txt with Some t => t | None => [] end.

Definition wrap_text_to_lines (txt : option text) (max_chars : Z) : list text :=
  let words := py_split (text_or_empty txt) in
  let (lines, cur) := fold_left (wrap_step max_chars) words ([], []) in
  if truthy cur then lines ++ [cur] else lines.

(** [" ".join(words)]. *)
Fixpoint join_words (words : list text) : text :=
  match words with
  | [] => []
  | w :: rest =>
      match rest with
      | [] => w
      | _ :: _ => w ++ [32%N] ++ join_words rest
      end
  end.

(** A word as [split] returns them: not empty, no whitespace inside. *)
Definition is_word (w : text) : Prop :=
  w <> [] /\ forallb (fun c => negb (is_space c)) w = true.

(** The words of one line after the other: [cur_group] are the words of the
    line being filled. *)
Fixpoint group_words (max_chars : Z) (cur_group : list text) (words : list text)
  : list (list text) :=
  match words with
  | [] => match cur_group with [] => [] | _ :: _ => [cur_group] end
  | w :: rest =>
      if py_len (join_words cur_group) + py_len w
         + (if truthy (join_words cur_group) then 1 else 0) <=? max_chars
      then group_words max_chars (cur_group ++ [w]) rest
      else match cur_group with
           | [] => group_words max_chars [w] rest
           | _ :: _ => cur_group :: group_words max_chars [w] rest
           end
  end.

(** "ab  cd e" with a tab and a no-break space around it. *)
Definition sample_text : text :=
  [9; 97; 98; 32; 32; 99; 100; 160; 101; 32]%N.

(** The first character is not whitespace; the same at both ends. *)
Definition starts_clean (s : text) : Prop :=
  match s with
  | c :: _ => is_space c = false
  | [] => False
  end.

Definition edge_clean (s : text) : Prop := starts_clean s /\ starts_clean (rev s).

(** A line fits, or is a single word. *)
Definition group_fits (max_chars : Z) (g : list text) : Prop :=
  py_len (join_words g) <= max_chars \/ exists w, g = [w].

(** Between two successive groups the first word of the second would not
    have fitted behind the first. *)
Fixpoint breaks_forced (max_chars : Z) (groups : list (list text)) : Prop :=
  match groups with
  | g1 :: rest =>
      match rest with
      | g2 :: _ =>
          match g2 with
          | w :: _ => max_chars < py_len (join_words g1) + 1 + py_len w
          | [] => False
          end
          /\ breaks_forced max_chars rest
      | [] => True
      end
  | [] => True
  end.

(** What holds of every line [wrap_text_to_lines] returns. *)
Definition line_shape (max_chars : Z) (line : text) : Prop :=
  line <> []
  /\ py_strip line = line
  /\ join_words (py_split line) = line
  /\ (py_len line <= max_chars \/ py_split line = [line]).

(** The last two lines of [wrap_text_to_lines], on the state the loop left. *)
Definition finish (state : list text * text) : list text :=
  let (lines, cur) := state in
  if truthy cur then lines ++ [cur] else lines.

(** ** The questionnaire page

    The values the form widgets hand back when the form is submitted: an
    unanswered radio or select box gives [None]. *)

Record Form : Type := mkForm {
  att : nat -> option string;
  cap_emergency : option string;
  cap_income : option string;
  cap_withdrawal : option string;
  cap_debt : option string;
  cap_dependence : option string;
  alt_reits : bool;
  alt_cmdty : bool;
  alt_eq : bool;
  alt_gate_exp : bool
}.

Record Session : Type := mkSession {
  page : string;
  results : option Results
}.

(** [enumerate(l, start=start)]. *)
Definition enumerate {A} (start : nat) (l : list A) : list (nat * A) :=
  combine (seq start (List.length l)) l.

(** [str(n)] for a natural number. *)
Definition decimal (n : nat) : string := NilEmpty.string_of_uint (Nat.to_uint n).

(** One radio per statement, numbered from 1. *)
Definition form_attitude_choices (f : Form) : list (option string) :=
  map (fun item : nat * (string * bool) => att f (fst item)) (enumerate 1 ITEMS).

Definition missing_if_none (v : option string) (label : string) : list string :=
  match v with
  | None => [label]
  | Some _ => []
  end.

(** The [missing] list of the submit handler. *)
Definition missing_of (f : Form) : list string :=
  flat_map (fun item : nat * option string =>
              missing_if_none (snd item)
                              ("Risk attitude question " ++ decimal (fst item)))
           (enumerate 1 (form_attitude_choices f))
  ++ missing_if_none (cap_emergency f) "Capacity: emergency fund"
  ++ missing_if_none (cap_income f) "Capacity: income stability"
  ++ missing_if_none (cap_withdrawal f) "Capacity: withdrawal likelihood"
  ++ missing_if_none (cap_debt f) "Capacity: debt burden"
  ++ missing_if_none (cap_dependence f) "Capacity: portfolio dependence".

Fixpoint all_some {A} (l : list (option A)) : option (list A) :=
  match l with
  | [] => Some []
  | None :: _ => None
  | Some a :: l' =>
      match all_some l' with
      | Some r => Some (a :: r)
      | None => None
      end
  end.

(** The [inputs] dict of the submit handler, when no value is [None]. *)
Definition collect_inputs (f : Form) : option Inputs :=
  match all_some (form_attitude_choices f), cap_emergency f, cap_income f,
        cap_withdrawal f, cap_debt f, cap_dependence f with
  | Some choices, Some e, Some i, Some w, Some d, Some p =>
      Some (mkInputs choices e i w d p (alt_reits f) (alt_cmdty f) (alt_eq f)
                     (alt_gate_exp f))
  | _, _, _, _, _, _ => None
  end.

Definition newline : string := String "010"%char EmptyString.

Definition missing_message (missing : list string) : string :=
  "Please answer all questions before viewing results." ++ newline ++ newline
  ++ "Missing:" ++ newline ++ "- " ++ String.concat (newline ++ "- ") missing.

Inductive submit_outcome : Type :=
| ShowError (message : string)
| Stored (session : Session)
| Crashed (e : exn).

(** The [if submitted:] block: an error message when something is
    missing, otherwise the result is stored and the page changes.  In the
    second branch no value is [None]; a [None] reaching the engine would
    miss its first table lookup. *)
Definition on_submit (f : Form) : submit_outcome :=
  match missing_of f with
  | _ :: _ => ShowError (missing_message (missing_of f))
  | [] =>
      match collect_inputs f with
      | Some inputs =>
          match compute_results inputs with
          | inr r => Stored (mkSession "results" (Some r))
          | inl e => Crashed e
          end
      | None => Crashed (KeyError "None")
      end
  end.

(** Some question is unanswered. *)
Definition unanswered (f : Form) : Prop :=
  (exists i, (1 <= i <= 12)%nat /\ att f i = None)
  \/ cap_emergency f = None \/ cap_income f = None \/ cap_withdrawal f = None
  \/ cap_debt f = None \/ cap_dependence f = None.

(** A radio or select box hands back one of the options it was given. *)
Definition widgets_in_range (f : Form) : Prop :=
  (forall i c, att f i = Some c -> list_mem c LIKERT = true)
  /\ (forall c, cap_emergency f = Some c -> list_mem c EMERGENCY_OPTIONS = true)
  /\ (forall c, cap_income f = Some c -> list_mem c INCOME_OPTIONS = true)
  /\ (forall c, cap_withdrawal f = Some c -> list_mem c WITHDRAWAL_OPTIONS = true)
  /\ (forall c, cap_debt f = Some c -> list_mem c DEBT_OPTIONS = true)
  /\ (forall c, cap_dependence f = Some c -> list_mem c DEPENDENCE_OPTIONS = true).

(** After a submit: an error message, or a stored result of a complete
    input on the results page. *)
Definition submit_handled (f : Form) : Prop :=
  (exists message, on_submit f = ShowError message)
  \/ (exists inputs r,
         collect_inputs f = Some inputs
         /\ complete inputs = true
         /\ compute_results inputs = OK r
         /\ on_submit f = Stored (mkSession "results" (Some r))).

(** A form filled in with the boldest answers, and one left half empty. *)
Definition filled_form : Form :=
  mkForm (fun i => nth_error bold_choices (i - 1))
         (Some "12+ months") (Some "Very stable (multiple reliable sources)")
         (Some "Very unlikely") (Some "None") (Some "Not dependent")
         true true false true.

Definition half_filled_form : Form :=
  mkForm (fun i => if Nat.leb i 6 then Some "Agree" else None)
         (Some "12+ months") None (Some "Very unlikely") (Some "None") None
         true true false true.

(** ** Bullets of the PDF report *)

Fixpoint bytes_of (s : string) : list N :=
  match s with
  | EmptyString => []
  | String a s' => N_of_ascii a :: bytes_of s'
  end.

(** One byte of UTF-8: [pending] gathers the bits of a character that
    still expects [more] continuation bytes. *)
Definition utf8_step (state : list N * N * nat) (b : N) : list N * N * nat :=
  let '(out, pending, more) := state in
  match more with
  | O =>
      if (b <? 128)%N then (out ++ [b], 0%N, O)
      else if (b <? 224)%N then (out, N.land b 31, 1%nat)
      else if (b <? 240)%N then (out, N.land b 15, 2%nat)
      else (out, N.land b 7, 3%nat)
  | S O => (out ++ [(pending * 64 + N.land b 63)%N], 0%N, O)
  | S k => (out, (pending * 64 + N.land b 63)%N, k)
  end.

(** The code points of a string of this development, whose literals are
    UTF-8. *)
Definition code_points (s : string) : text :=
  fst (fst (fold_left utf8_step (bytes_of s) ([], 0%N, O))).

(** The strings [para] draws, one per [drawString]. *)
Definition para_lines (txt : text) (max_chars : Z) : list text :=
  wrap_text_to_lines (Some txt) max_chars.

(** [f"• {r}"]. *)
Definition bullet (r : string) : text := code_points ("• " ++ r).

Definition drawn_whole (r : string) : Prop :=
  para_lines (bullet r) 110 = [bullet r].

(** ** Runtime lemmas *)

Lemma bind_OK {A B} (m : result A) (k : A -> result B) (b : B) :
  bind m k = OK b -> exists a, m = OK a /\ k a = OK b.
Proof.
  destruct m as [e | a]; cbn; intros H; [discriminate H | eauto].
Qed.

Lemma OK_inj {A} (a b : A) : OK a = OK b -> a = b.
Proof. intros H. now injection H. Qed.

Lemma list_mem_true_iff (x : string) (l : list string) :
  list_mem x l = true <-> In x l.
Proof.
  unfold list_mem. rewrite existsb_exists. split.
  - intros (y & Hy & E). apply String.eqb_eq in E. now subst.
  - intros H. exists x. split; [assumption | apply String.eqb_refl].
Qed.

Lemma dict_get_raises {V} (d : list (string * V)) (k : string) (e : exn) :
  dict_get d k = Raise e -> e = KeyError k.
Proof.
  induction d as [| [k' v] d IH]; cbn; intros H.
  - now inversion H.
  - destruct (String.eqb k k'); [discriminate H | auto].
Qed.

Lemma dict_get_missing {V} (d : list (string * V)) (k : string) :
  list_mem k (map fst d) = false -> dict_get d k = Raise (KeyError k).
Proof.
  induction d as [| [k' v] d IH]; cbn; intros H; [reflexivity |].
  apply orb_false_iff in H. destruct H as [E H].
  rewrite E. auto.
Qed.

Lemma dict_get_present {V} (d : list (string * V)) (k : string) :
  list_mem k (map fst d) = true -> exists v, dict_get d k = OK v /\ In (k, v) d.
Proof.
  induction d as [| [k' v] d IH]; cbn; intros H; [discriminate H |].
  destruct (String.eqb k k') eqn:E.
  - apply String.eqb_eq in E. subst. eauto.
  - destruct (IH H) as (w & Hw & Hin). eauto.
Qed.

Lemma py_sum_shift (l : list Z) (a : Z) : fold_left Z.add l a = a + list_sum l.
Proof.
  revert a. induction l as [| x l IH]; intros a; cbn.
  - lia.
  - rewrite IH. unfold list_sum. lia.
Qed.

Lemma py_sum_list_sum (l : list Z) : py_sum l = list_sum l.
Proof. unfold py_sum. rewrite py_sum_shift. lia. Qed.

Lemma list_sum_app (l l' : list Z) : list_sum (l ++ l') = list_sum l + list_sum l'.
Proof.
  induction l as [| x l IH]; cbn; [reflexivity |].
  unfold list_sum in *. lia.
Qed.

Lemma list_sum_bounds (lo hi : Z) (l : list Z) :
  Forall (fun x => lo <= x <= hi) l ->
  lo * Z.of_nat (List.length l) <= list_sum l <= hi * Z.of_nat (List.length l).
Proof.
  induction 1 as [| x l Hx _ IH].
  - cbn. lia.
  - change (list_sum (x :: l)) with (x + list_sum l).
    change (List.length (x :: l)) with (S (List.length l)). lia.
Qed.

Lemma map_snd_combine {A B} (l : list A) (l' : list B) :
  map snd (combine l l') = firstn (List.length l) l'.
Proof.
  revert l'. induction l as [| a l IH]; intros [| b l']; cbn; try reflexivity.
  now rewrite IH.
Qed.

(** ** The Likert table *)

Lemma likert_lookup (choice : string) :
  list_mem choice LIKERT = true ->
  dict_get LIKERT_TO_NUM choice = OK (likert_value choice)
  /\ 1 <= likert_value choice <= 5.
Proof.
  intros H. apply list_mem_true_iff in H. cbn in H.
  destruct H as [<- | [<- | [<- | [<- | [<- | []]]]]];
    (split; [reflexivity | vm_compute; split; discriminate]).
Qed.

Lemma likert_outside (choice : string) :
  list_mem choice LIKERT = false ->
  dict_get LIKERT_TO_NUM choice = Raise (KeyError choice).
Proof.
  intros H. apply dict_get_missing.
  destruct (list_mem choice (map fst LIKERT_TO_NUM)) eqn:E; [| reflexivity].
  apply list_mem_true_iff in E.
  assert (In choice LIKERT) as Hin by (cbn in E |- *; intuition).
  apply list_mem_true_iff in Hin. congruence.
Qed.

(** ** The scoring loop *)

Lemma attitude_loop_valid (zs : list ((string * bool) * string)) :
  all_likert zs ->
  forall st,
    attitude_loop zs st =
    OK (mkLoop (st_neutral_count st + neutral_of zs)
               (st_responses_raw st ++ raw_values zs)
               (st_responses_scored st ++ scored_values zs)).
Proof.
  induction 1 as [| [[stmt is_normal] choice] zs Hz _ IH]; intros st.
  - cbn. unfold neutral_of. cbn. rewrite Z.add_0_r, !app_nil_r.
    now destruct st.
  - cbn [attitude_loop]. cbn [snd] in Hz.
    destruct (likert_lookup choice Hz) as [-> _]. cbn [bind OK].
    rewrite IH. cbn [st_neutral_count st_responses_raw st_responses_scored].
    unfold OK. do 2 f_equal.
    + unfold neutral_of. cbn [filter snd].
      destruct (String.eqb choice "No strong opinion"); cbn [List.length]; lia.
    + now rewrite <- app_assoc.
    + rewrite <- app_assoc. reflexivity.
Qed.

Lemma attitude_loop_invalid (zs : list ((string * bool) * string)) :
  (exists z, In z zs /\ list_mem (snd z) LIKERT = false) ->
  forall st, exists k, attitude_loop zs st = Raise (KeyError k).
Proof.
  induction zs as [| [[stmt is_normal] choice] zs IH]; intros (z & Hin & Hz) st.
  - destruct Hin.
  - cbn [attitude_loop].
    destruct (dict_get LIKERT_TO_NUM choice) as [e | raw] eqn:E.
    + apply dict_get_raises in E. subst e. cbn. eauto.
    + cbn [bind]. apply IH. exists z. split; [| assumption].
      destruct Hin as [<- | Hin]; [| assumption].
      cbn [snd] in Hz. rewrite (likert_outside _ Hz) in E. discriminate E.
Qed.

Lemma scored_values_range (zs : list ((string * bool) * string)) :
  all_likert zs -> Forall (fun x => 1 <= x <= 5) (scored_values zs).
Proof.
  induction 1 as [| [[stmt is_normal] choice] zs Hz _ IH]; cbn; constructor.
  - cbn [snd fst] in *. destruct (likert_lookup choice Hz) as [_ Hr].
    unfold scored_value. destruct is_normal; lia.
  - exact IH.
Qed.

Lemma raw_values_range (zs : list ((string * bool) * string)) :
  all_likert zs -> Forall (fun x => 1 <= x <= 5) (raw_values zs).
Proof.
  induction 1 as [| [[stmt is_normal] choice] zs Hz _ IH]; cbn; constructor.
  - cbn [snd] in *. now destruct (likert_lookup choice Hz).
  - exact IH.
Qed.

Lemma all_likert_combine (items : list (string * bool)) (choices : list string) :
  forallb (fun c => list_mem c LIKERT) (firstn (List.length items) choices) = true ->
  all_likert (combine items choices).
Proof.
  unfold all_likert. rewrite Forall_forall, forallb_forall.
  intros H z Hz. apply H. rewrite <- map_snd_combine. now apply in_map.
Qed.

(** ** Normalising the total *)

Lemma totals_spec (raw_total : Z) : 0 <= raw_total <= 60 -> In raw_total totals.
Proof.
  intros H. unfold totals. apply in_map_iff. exists (Z.to_nat raw_total).
  split; [lia |]. apply in_seq. lia.
Qed.

Lemma normalise_agrees_all : forallb normalise_agrees totals = true.
Proof. vm_compute. reflexivity. Qed.

Lemma normalise_score_exact (raw_total : Z) :
  0 <= raw_total <= 60 ->
  normalise_score raw_total = OK (round_half_even ((raw_total - 12) * 100) 48).
Proof.
  intros H. apply totals_spec in H.
  pose proof normalise_agrees_all as A. rewrite forallb_forall in A.
  specialize (A _ H). unfold normalise_agrees in A.
  destruct (normalise_score raw_total) as [e | s]; [discriminate A |].
  apply Z.eqb_eq in A. now subst.
Qed.

(** A tie goes to the even neighbour: a total of 18 gives 12.5, scored 12. *)
Lemma tie_rounds_to_even : normalise_score 18 = OK 12.
Proof. vm_compute. reflexivity. Qed.

Lemma round_half_even_range (raw_total : Z) :
  12 <= raw_total <= 60 ->
  0 <= round_half_even ((raw_total - 12) * 100) 48 <= 100.
Proof.
  intros H.
  assert (forallb (fun t => (t <? 12)
                            || ((0 <=? round_half_even ((t - 12) * 100) 48)
                                && (round_half_even ((t - 12) * 100) 48 <=? 100)))
                  totals = true) as A by (vm_compute; reflexivity).
  rewrite forallb_forall in A.
  assert (In raw_total totals) as Hin by (apply totals_spec; lia).
  specialize (A raw_total Hin). cbv beta in A.
  apply orb_true_iff in A. destruct A as [A | A]; [lia |].
  apply andb_true_iff in A. lia.
Qed.

(** ** Lists read by position *)

Lemma list_index_nth (l : list string) (x : string) (i : Z) :
  list_index l x = OK i ->
  0 <= i < Z.of_nat (List.length l) /\ nth_error l (Z.to_nat i) = Some x.
Proof.
  revert i. induction l as [| y l IH]; intros i H; cbn in H.
  - discriminate H.
  - destruct (String.eqb y x) eqn:E.
    + apply String.eqb_eq in E. inversion H. subst. cbn. split; [lia | reflexivity].
    + apply bind_OK in H. destruct H as (j & Hj & H). inversion H. subst i.
      destruct (IH _ Hj) as [Hr Hn]. cbn [List.length]. split; [lia |].
      replace (Z.to_nat (j + 1)) with (S (Z.to_nat j)) by lia. exact Hn.
Qed.

Lemma list_get_nth {A} (l : list A) (i : Z) (x : A) :
  0 <= i -> nth_error l (Z.to_nat i) = Some x -> list_get l i = OK x.
Proof.
  intros Hi Hn. unfold list_get.
  destruct (i <? 0) eqn:E; [apply Z.ltb_lt in E; lia |].
  rewrite E, Hn. reflexivity.
Qed.

Lemma list_get_inv {A} (l : list A) (i : Z) (x : A) :
  0 <= i -> list_get l i = OK x -> nth_error l (Z.to_nat i) = Some x.
Proof.
  intros Hi. unfold list_get.
  destruct (i <? 0) eqn:E; [apply Z.ltb_lt in E; lia |].
  rewrite E. destruct (nth_error l (Z.to_nat i)); intros H; now inversion H.
Qed.

(** ** Bands *)

Lemma category_from_score_index (score : Z) :
  exists i, list_index BAND_ORDER (category_from_score score) = OK i /\ 0 <= i <= 6.
Proof.
  unfold category_from_score.
  repeat match goal with
         | |- context [if ?b then _ else _] => destruct b
         end;
    eexists; (split; [reflexivity | lia]).
Qed.

Lemma capacity_band_cases (points : Z) :
  (points <= 10 /\ capacity_band_of points = "Low capacity for loss")
  \/ (10 < points <= 20 /\ capacity_band_of points = "Medium capacity for loss")
  \/ (20 < points /\ capacity_band_of points = "High capacity for loss").
Proof.
  unfold capacity_band_of.
  destruct (points <=? 10) eqn:E1; [apply Z.leb_le in E1; auto |].
  apply Z.leb_gt in E1.
  destruct (points <=? 20) eqn:E2; [apply Z.leb_le in E2 | apply Z.leb_gt in E2];
    [right; left | right; right]; split; (lia || reflexivity).
Qed.

Lemma capacity_max_band_total (points : Z) :
  exists mb j,
    dict_get CAPACITY_MAX_BAND (capacity_band_of points) = OK mb
    /\ list_index BAND_ORDER mb = OK j.
Proof.
  destruct (capacity_band_cases points) as [[_ ->] | [[_ ->] | [_ ->]]];
    do 2 eexists; split; reflexivity.
Qed.

Lemma band_at_or_below_spec (current_band max_band : string) (i j : Z) :
  list_index BAND_ORDER current_band = OK i ->
  list_index BAND_ORDER max_band = OK j ->
  band_at_or_below current_band max_band =
  OK (if i <=? j then current_band else max_band).
Proof.
  intros Hi Hj. unfold band_at_or_below. rewrite Hi, Hj. cbn [bind OK].
  destruct (list_index_nth _ _ _ Hi) as [Ri Ni].
  destruct (list_index_nth _ _ _ Hj) as [Rj Nj].
  destruct (i <=? j) eqn:E; [apply Z.leb_le in E | apply Z.leb_gt in E].
  - rewrite Z.min_l by lia. apply list_get_nth; [lia | assumption].
  - rewrite Z.min_r by lia. apply list_get_nth; [lia | assumption].
Qed.

Lemma band_at_or_below_inv (current_band max_band final : string) :
  band_at_or_below current_band max_band = OK final ->
  exists i j,
    list_index BAND_ORDER current_band = OK i
    /\ list_index BAND_ORDER max_band = OK j
    /\ final = (if i <=? j then current_band else max_band)
    /\ list_index BAND_ORDER final = OK (Z.min i j).
Proof.
  intros H. pose proof H as H0. unfold band_at_or_below in H.
  apply bind_OK in H. destruct H as (i & Hi & H).
  apply bind_OK in H. destruct H as (j & Hj & _).
  rewrite (band_at_or_below_spec _ _ _ _ Hi Hj) in H0. inversion H0 as [E].
  exists i, j. repeat split; try assumption.
  destruct (i <=? j) eqn:L; [apply Z.leb_le in L | apply Z.leb_gt in L].
  - now rewrite Z.min_l by lia.
  - now rewrite Z.min_r by lia.
Qed.

Lemma max_policy_row (band : string) (limits : Limits) :
  dict_get MAX_POLICY band = OK limits ->
  max_equity limits + max_sukuk limits + max_alternatives limits = 100
  /\ 0 <= max_equity limits /\ 0 <= max_sukuk limits <= 100
  /\ 0 <= max_alternatives limits.
Proof.
  unfold MAX_POLICY. cbn [dict_get].
  repeat (destruct (String.eqb band _);
          [intros H; inversion H; cbn; lia |]).
  intros H. discriminate H.
Qed.

Lemma max_policy_total (band : string) (i : Z) :
  list_index BAND_ORDER band = OK i -> exists limits, dict_get MAX_POLICY band = OK limits.
Proof.
  intros H. apply list_index_nth in H. destruct H as [R N].
  apply nth_error_In in N.
  destruct (dict_get_present MAX_POLICY band) as (limits & Hl & _);
    [apply list_mem_true_iff; exact N | eauto].
Qed.

(** ** Capacity answers *)

Ltac options_cases H :=
  apply list_mem_true_iff in H; cbn in H;
  destruct H as [<- | [<- | [<- | [<- | []]]]];
  [exists 0 | exists 1 | exists 2 | exists 3];
  (split; [reflexivity | split; [reflexivity | lia]]).

Lemma emergency_scored : well_scored EMERGENCY_OPTIONS EMERGENCY_POINTS.
Proof. intros x H. options_cases H. Qed.

Lemma income_scored : well_scored INCOME_OPTIONS INCOME_POINTS.
Proof. intros x H. options_cases H. Qed.

Lemma withdrawal_scored : well_scored WITHDRAWAL_OPTIONS WITHDRAWAL_POINTS.
Proof. intros x H. options_cases H. Qed.

Lemma debt_scored : well_scored DEBT_OPTIONS DEBT_POINTS.
Proof. intros x H. options_cases H. Qed.

Lemma dependence_scored : well_scored DEPENDENCE_OPTIONS DEPENDENCE_POINTS.
Proof. intros x H. options_cases H. Qed.

(** ** Running the engine on a complete input *)

Lemma likert_answers_inv (choices : list string) :
  likert_answers choices = true ->
  List.length choices = 12%nat
  /\ forallb (fun c => list_mem c LIKERT) choices = true.
Proof.
  unfold likert_answers. rewrite andb_true_iff, Nat.eqb_eq. tauto.
Qed.

Lemma complete_inv (inputs : Inputs) :
  complete inputs = true ->
  likert_answers (attitude_choices inputs) = true
  /\ list_mem (emergency_months inputs) EMERGENCY_OPTIONS = true
  /\ list_mem (income_stability inputs) INCOME_OPTIONS = true
  /\ list_mem (withdrawal_need inputs) WITHDRAWAL_OPTIONS = true
  /\ list_mem (debt_burden inputs) DEBT_OPTIONS = true
  /\ list_mem (portfolio_dependence inputs) DEPENDENCE_OPTIONS = true.
Proof.
  unfold complete. rewrite !andb_true_iff. tauto.
Qed.

Lemma complete_answers (inputs : Inputs) :
  complete inputs = true -> likert_answers (attitude_choices inputs) = true.
Proof. intros H. now apply complete_inv in H. Qed.

Lemma answers_all_likert (choices : list string) :
  likert_answers choices = true -> all_likert (combine ITEMS choices).
Proof.
  intros H. apply likert_answers_inv in H. destruct H as (L & F).
  apply all_likert_combine.
  change (List.length ITEMS) with 12%nat. rewrite <- L, firstn_all. exact F.
Qed.

Lemma combine_items_length (choices : list string) :
  List.length choices = 12%nat -> List.length (combine ITEMS choices) = 12%nat.
Proof.
  intros L. rewrite length_combine, L. reflexivity.
Qed.

Lemma raw_total_range (choices : list string) :
  likert_answers choices = true -> 12 <= raw_total_of choices <= 60.
Proof.
  intros H. pose proof (answers_all_likert _ H) as A.
  apply likert_answers_inv in H. destruct H as (L & _).
  apply scored_values_range in A. apply list_sum_bounds in A.
  unfold scored_values in A. rewrite length_map, (combine_items_length _ L) in A.
  unfold raw_total_of, scored_values. lia.
Qed.

(** The risk-attitude stage: the loop ends with the raw and transformed
    values of the twelve answers, and the total normalises to a score. *)
Lemma attitude_stage (choices : list string) :
  likert_answers choices = true ->
  let zs := combine ITEMS choices in
  attitude_loop zs (mkLoop 0 [] []) =
  OK (mkLoop (neutral_of zs) (raw_values zs) (scored_values zs))
  /\ normalise_score (py_sum (scored_values zs)) =
     OK (round_half_even ((raw_total_of choices - 12) * 100) 48).
Proof.
  intros H zs. subst zs. split.
  - rewrite (attitude_loop_valid _ (answers_all_likert _ H)). reflexivity.
  - rewrite py_sum_list_sum. apply normalise_score_exact.
    pose proof (raw_total_range _ H) as R. lia.
Qed.

Lemma nth_error_combine {A B} (l : list A) (l' : list B) (i : nat) (a : A) (b : B) :
  nth_error l i = Some a -> nth_error l' i = Some b ->
  nth_error (combine l l') i = Some (a, b).
Proof.
  revert l' i. induction l as [| x l IH]; intros l' i Ha Hb.
  - destruct i; discriminate Ha.
  - destruct l' as [| y l']; [destruct i; discriminate Hb |].
    destruct i as [| i]; cbn in *.
    + now inversion Ha; inversion Hb.
    + now apply IH.
Qed.

(** The loop's [responses_raw] holds, at each position, the value of the
    answer given at that position. *)
Lemma raw_values_get (choices : list string) (i : nat) :
  likert_answers choices = true -> (i < 12)%nat ->
  exists c, nth_error choices i = Some c
            /\ list_mem c LIKERT = true
            /\ list_get (raw_values (combine ITEMS choices)) (Z.of_nat i)
               = OK (likert_value c).
Proof.
  intros H Hi. apply likert_answers_inv in H. destruct H as (L & F).
  destruct (nth_error choices i) as [c |] eqn:N.
  2:{ apply nth_error_None in N. lia. }
  exists c. split; [reflexivity |]. split.
  - rewrite forallb_forall in F. apply F. eapply nth_error_In. exact N.
  - apply list_get_nth; [lia |]. rewrite Nat2Z.id.
    unfold raw_values. rewrite nth_error_map.
    destruct (nth_error ITEMS i) as [it |] eqn:NI.
    2:{ apply nth_error_None in NI. change (List.length ITEMS) with 12%nat in NI. lia. }
    rewrite (nth_error_combine _ _ _ _ _ NI N). reflexivity.
Qed.

(** Every successful run went through the same steps: the values the
    function computed on its way determine the whole of its result. *)
Lemma compute_results_inv (inputs : Inputs) (r : Results) :
  compute_results inputs = OK r ->
  exists st score p1 p2 p3 p4 p5 mb fb raw9 bl raw12,
    attitude_loop (combine ITEMS (attitude_choices inputs)) (mkLoop 0 [] []) = OK st
    /\ normalise_score (py_sum (st_responses_scored st)) = OK score
    /\ dict_get EMERGENCY_POINTS (emergency_months inputs) = OK p1
    /\ dict_get INCOME_POINTS (income_stability inputs) = OK p2
    /\ dict_get WITHDRAWAL_POINTS (withdrawal_need inputs) = OK p3
    /\ dict_get DEBT_POINTS (debt_burden inputs) = OK p4
    /\ dict_get DEPENDENCE_POINTS (portfolio_dependence inputs) = OK p5
    /\ dict_get CAPACITY_MAX_BAND (capacity_band_of (p1 + p2 + p3 + p4 + p5)) = OK mb
    /\ band_at_or_below (category_from_score score) mb = OK fb
    /\ list_get (st_responses_raw st) 8 = OK raw9
    /\ dict_get MAX_POLICY fb = OK bl
    /\ list_get (st_responses_raw st) 11 = OK raw12
    /\ r = assemble inputs score (st_neutral_count st) (p1 + p2 + p3 + p4 + p5)
                   mb fb bl raw9 raw12.
Proof.
  unfold compute_results. cbv zeta. intros H.
  apply bind_OK in H. destruct H as (st & Hst & H).
  apply bind_OK in H. destruct H as (score & Hscore & H).
  apply bind_OK in H. destruct H as (p1 & H1 & H).
  apply bind_OK in H. destruct H as (p2 & H2 & H).
  apply bind_OK in H. destruct H as (p3 & H3 & H).
  apply bind_OK in H. destruct H as (p4 & H4 & H).
  apply bind_OK in H. destruct H as (p5 & H5 & H).
  apply bind_OK in H. destruct H as (mb & Hmb & H).
  apply bind_OK in H. destruct H as (fb & Hfb & H).
  apply bind_OK in H. destruct H as (raw9 & H9 & H).
  apply bind_OK in H. destruct H as (bl & Hbl & H).
  apply bind_OK in H. destruct H as (raw12 & H12 & H).
  change (0 + p1) with p1 in *.
  exists st, score, p1, p2, p3, p4, p5, mb, fb, raw9, bl, raw12.
  repeat (split; [assumption |]).
  now inversion H.
Qed.

(** On a complete input no step raises. *)
Lemma compute_results_total (inputs : Inputs) :
  complete inputs = true -> exists r, compute_results inputs = OK r.
Proof.
  intros H.
  pose proof (complete_answers _ H) as HA.
  destruct (attitude_stage _ HA) as [Hloop Hscore].
  destruct (raw_values_get _ 8 HA ltac:(lia)) as (c9 & _ & _ & H9).
  destruct (raw_values_get _ 11 HA ltac:(lia)) as (c12 & _ & _ & H12).
  destruct (complete_inv _ H) as (_ & M1 & M2 & M3 & M4 & M5).
  destruct (emergency_scored _ M1) as (i1 & _ & E1 & _).
  destruct (income_scored _ M2) as (i2 & _ & E2 & _).
  destruct (withdrawal_scored _ M3) as (i3 & _ & E3 & _).
  destruct (debt_scored _ M4) as (i4 & _ & E4 & _).
  destruct (dependence_scored _ M5) as (i5 & _ & E5 & _).
  unfold compute_results. cbv zeta.
  rewrite Hloop. cbn [bind OK st_responses_scored st_responses_raw st_neutral_count].
  rewrite Hscore. cbn [bind OK].
  rewrite E1. cbn [bind OK]. rewrite E2. cbn [bind OK]. rewrite E3. cbn [bind OK].
  rewrite E4. cbn [bind OK]. rewrite E5. cbn [bind OK].
  match goal with
  | |- context [dict_get CAPACITY_MAX_BAND (capacity_band_of ?p)] =>
      destruct (capacity_max_band_total p) as (mb & j & Hmb & Hj)
  end.
  rewrite Hmb. cbn [bind OK].
  match goal with
  | |- context [band_at_or_below (category_from_score ?s) mb] =>
      destruct (category_from_score_index s) as (i & Hi & _);
      pose proof (band_at_or_below_spec _ _ _ _ Hi Hj) as Hfb;
      assert (exists k, list_index BAND_ORDER
                          (if i <=? j then category_from_score s else mb) = OK k)
        as (k & Hk) by (destruct (i <=? j); eauto)
  end.
  rewrite Hfb. cbn [bind OK].
  change 8 with (Z.of_nat 8). rewrite H9. cbn [bind OK].
  destruct (max_policy_total _ _ Hk) as (bl & Hbl). rewrite Hbl. cbn [bind OK].
  change 11 with (Z.of_nat 11). rewrite H12. cbn [bind OK].
  eauto.
Qed.

(** A complete input runs to the result assembled from the exact score, the
    five option scores and the raw values of statements 9 and 12. *)
Lemma compute_results_complete (inputs : Inputs) :
  complete inputs = true ->
  let choices := attitude_choices inputs in
  let score := round_half_even ((raw_total_of choices - 12) * 100) 48 in
  exists p1 p2 p3 p4 p5 mb fb bl,
    dict_get EMERGENCY_POINTS (emergency_months inputs) = OK p1
    /\ dict_get INCOME_POINTS (income_stability inputs) = OK p2
    /\ dict_get WITHDRAWAL_POINTS (withdrawal_need inputs) = OK p3
    /\ dict_get DEBT_POINTS (debt_burden inputs) = OK p4
    /\ dict_get DEPENDENCE_POINTS (portfolio_dependence inputs) = OK p5
    /\ dict_get CAPACITY_MAX_BAND (capacity_band_of (p1 + p2 + p3 + p4 + p5)) = OK mb
    /\ band_at_or_below (category_from_score score) mb = OK fb
    /\ dict_get MAX_POLICY fb = OK bl
    /\ compute_results inputs =
       OK (assemble inputs score (neutral_of (combine ITEMS choices))
             (p1 + p2 + p3 + p4 + p5) mb fb bl
             (raw_answer 8 inputs) (raw_answer 11 inputs)).
Proof.
  intros H choices score. subst choices score.
  destruct (compute_results_total _ H) as (r & Hr).
  destruct (compute_results_inv _ _ Hr)
    as (st & score & p1 & p2 & p3 & p4 & p5 & mb & fb & raw9 & bl & raw12
        & Hst & Hscore & H1 & H2 & H3 & H4 & H5 & Hmb & Hfb & H9 & Hbl & H12 & ->).
  pose proof (complete_answers _ H) as HA.
  destruct (attitude_stage _ HA) as [Hloop Hnorm].
  rewrite Hloop in Hst. apply OK_inj in Hst. subst st.
  cbn [st_responses_scored st_responses_raw st_neutral_count] in *.
  rewrite Hnorm in Hscore. apply OK_inj in Hscore. subst score.
  destruct (raw_values_get _ 8 HA ltac:(lia)) as (c9 & N9 & _ & G9).
  destruct (raw_values_get _ 11 HA ltac:(lia)) as (c12 & N12 & _ & G12).
  change (Z.of_nat 8) with 8 in G9. change (Z.of_nat 11) with 11 in G12.
  rewrite G9 in H9. apply OK_inj in H9. subst raw9.
  rewrite G12 in H12. apply OK_inj in H12. subst raw12.
  exists p1, p2, p3, p4, p5, mb, fb, bl.
  repeat (split; [assumption |]).
  rewrite Hr. unfold raw_answer. rewrite N9, N12. reflexivity.
Qed.

(** ** Gating and flags *)

Lemma gating_reasons_selected (liquidity capacity gate limited : bool) :
  gating_reasons liquidity capacity gate limited =
  selected_reasons liquidity capacity (gate && limited).
Proof. reflexivity. Qed.

Lemma experience_reason_selected (liquidity capacity experience : bool) :
  In experience_reason (selected_reasons liquidity capacity experience)
  <-> experience = true.
Proof.
  destruct liquidity, capacity, experience; cbn; split; intros H;
    try discriminate H; auto;
    repeat (destruct H as [H | H]; [discriminate H |]); destruct H.
Qed.

Lemma experience_flag_raised (neutral score raw12 : Z) (limited : bool) :
  In experience_flag (robustness_flags neutral score raw12 limited)
  <-> 68 <= score /\ limited = true.
Proof.
  unfold robustness_flags.
  destruct (score >=? 68) eqn:S;
    [apply Z.geb_le in S | rewrite Z.geb_leb in S; apply Z.leb_gt in S];
    destruct (neutral >=? 6), (raw12 >=? 4), limited; cbn; split; intros H;
    try (split; [lia | reflexivity]); auto;
    try (destruct H as [H1 H2]; first [lia | discriminate H2]);
    repeat (destruct H as [H | H]; [discriminate H |]); destruct H.
Qed.

Lemma geb_4 (x : Z) : (x >=? 4) = true <-> 4 <= x.
Proof. rewrite Z.geb_le. tauto. Qed.

(** ** Properties of the engine *)

(** C1 (as the code has it): the limited-experience condition that decides
    the third alternatives gate (with the toggle) and the
    experience-inconsistency flag (with a score of 68 or more) holds exactly
    when the raw Likert value of the 9th statement, the reverse-tagged "I have
    limited experience with funds, shares, or market investing.", is at
    least 4. *)
Theorem limited_experience_is_statement_9 (inputs : Inputs) :
  complete inputs = true ->
  nth_error ITEMS 8 =
  Some ("I have limited experience with funds, shares, or market investing.", false)
  /\ exists r, compute_results inputs = OK r /\ limited_experience_by 8 inputs r.
Proof.
  intros H. split; [reflexivity |].
  destruct (compute_results_complete _ H)
    as (p1 & p2 & p3 & p4 & p5 & mb & fb & bl & _ & _ & _ & _ & _ & _ & _ & _ & Hr).
  eexists. split; [exact Hr |].
  unfold limited_experience_by, assemble.
  cbn [alt_forced_zero_reasons flags risk_attitude_score].
  rewrite gating_reasons_selected, experience_reason_selected,
    experience_flag_raised, andb_true_iff, geb_4.
  tauto.
Qed.

Lemma limited_experience_is_statement_9_witness :
  complete bold_input = true
  /\ nth_error ITEMS 8 =
     Some ("I have limited experience with funds, shares, or market investing.", false)
  /\ exists r, compute_results bold_input = OK r /\ limited_experience_by 8 bold_input r.
Proof.
  split; [reflexivity |].
  apply (limited_experience_is_statement_9 bold_input). reflexivity.
Defined.

(** C1 as stated fails: the bold client answers the 7th statement with
    "Strongly agree" (raw value 5), has the toggle enabled and scores 100,
    yet neither the experience reason nor the experience flag is produced,
    because the 9th answer is "Strongly disagree". *)
Lemma limited_experience_not_statement_7 :
  complete bold_input = true
  /\ nth_error ITEMS 6 =
     Some ("I find investing concepts fairly easy to understand.", true)
  /\ raw_answer 6 bold_input = 5
  /\ raw_answer 8 bold_input = 1
  /\ limited_experience_gate bold_input = true
  /\ (exists r, compute_results bold_input = OK r
                /\ risk_attitude_score r = 100
                /\ alt_forced_zero_reasons r = []
                /\ flags r = [])
  /\ ~ (exists r, compute_results bold_input = OK r
                  /\ limited_experience_by 6 bold_input r).
Proof.
  assert (exists r, compute_results bold_input = OK r
                    /\ risk_attitude_score r = 100
                    /\ alt_forced_zero_reasons r = []
                    /\ flags r = []) as E.
  { eexists. split; [vm_compute; reflexivity | repeat split]. }
  repeat (split; [reflexivity |]). split; [exact E |].
  destruct E as (r0 & Hr0 & _ & Hreasons & _).
  intros (r & Hr & [Hgate _]).
  rewrite Hr0 in Hr. apply OK_inj in Hr. subst r.
  rewrite Hreasons in Hgate. apply (proj2 Hgate).
  split; [reflexivity | vm_compute; discriminate].
Qed.

Lemma raw_total_strongly_agree : raw_total_of (repeat "Strongly agree" 12) = 32.
Proof. vm_compute. reflexivity. Qed.

(** C2 (as the code has it): when all twelve selections are "Strongly
    agree", whatever the valid capacity answers, the statement list has 7
    reverse-tagged and 5 normal-tagged statements, the transformed sum is
    7 * 1 + 5 * 5 = 32 and the risk-attitude score is 42. *)
Theorem strongly_agree_scores_42 (inputs : Inputs) :
  complete inputs = true ->
  attitude_choices inputs = repeat "Strongly agree" 12 ->
  tagging_outcome 7 5 32 42 inputs.
Proof.
  intros H Hc. unfold tagging_outcome.
  split; [reflexivity |]. split; [reflexivity |].
  rewrite Hc. split; [exact raw_total_strongly_agree |].
  destruct (compute_results_complete _ H)
    as (p1 & p2 & p3 & p4 & p5 & mb & fb & bl & _ & _ & _ & _ & _ & _ & _ & _ & Hr).
  eexists. split; [exact Hr |].
  unfold assemble. cbn [risk_attitude_score].
  rewrite Hc, raw_total_strongly_agree. reflexivity.
Qed.

Lemma strongly_agree_scores_42_witness :
  complete strongly_agree_input = true
  /\ attitude_choices strongly_agree_input = repeat "Strongly agree" 12
  /\ tagging_outcome 7 5 32 42 strongly_agree_input.
Proof.
  split; [reflexivity |]. split; [reflexivity |].
  apply (strongly_agree_scores_42 strongly_agree_input); reflexivity.
Defined.

(** C2 as stated fails: on the all-"Strongly agree" input with the best
    capacity answers the tagging is not 6 and 6, the sum is not 36 and the
    score is not 50. *)
Lemma strongly_agree_not_50 :
  complete strongly_agree_input = true
  /\ attitude_choices strongly_agree_input = repeat "Strongly agree" 12
  /\ List.length (filter (fun it : string * bool => negb (snd it)) ITEMS) <> 6%nat
  /\ raw_total_of (attitude_choices strongly_agree_input) <> 36
  /\ (forall r, compute_results strongly_agree_input = OK r ->
                risk_attitude_score r <> 50)
  /\ ~ tagging_outcome 6 6 36 50 strongly_agree_input.
Proof.
  split; [reflexivity |]. split; [reflexivity |].
  split; [vm_compute; discriminate |].
  split; [vm_compute; discriminate |].
  split.
  - intros r Hr. vm_compute in Hr. apply OK_inj in Hr. subst r.
    vm_compute. discriminate.
  - intros (Hrev & _). vm_compute in Hrev. discriminate Hrev.
Qed.

(** The capped limits depend on the base row and on whether a reason
    fired. *)
Lemma gate_limits_none (base : Limits) : gate_limits base [] = base.
Proof.
  unfold gate_limits. rewrite Z.sub_diag. cbn. now destruct base.
Qed.

Lemma gate_limits_some (base : Limits) (reason : string) (reasons : list string) :
  0 <= max_alternatives base -> max_sukuk base <= 100 ->
  gate_limits base (reason :: reasons) =
  mkLimits (max_equity base)
           (Z.min 100 (max_sukuk base + max_alternatives base)) 0.
Proof.
  intros Ha Hs. unfold gate_limits. rewrite Z.sub_0_r.
  destruct (max_alternatives base >? 0) eqn:E; [reflexivity |].
  rewrite Z.gtb_ltb in E. apply Z.ltb_ge in E.
  replace (max_alternatives base) with 0 by lia.
  rewrite Z.add_0_r, Z.min_r by lia. reflexivity.
Qed.

Lemma withdrawal_soon (answer : string) :
  list_mem answer ["Very likely"; "Somewhat likely"] = true
  <-> answer = "Very likely" \/ answer = "Somewhat likely".
Proof.
  rewrite list_mem_true_iff. cbn. intuition.
Qed.

(** C3: when a reason fired the final alternatives cap is 0 and the final
    sukuk cap is min(100, base sukuk + base alternatives); when none fired
    the final limits are the base limits; and the reasons are, in this
    order, the liquidity reason iff the withdrawal answer is "Very likely" or
    "Somewhat likely", the capacity reason iff the capacity band is Low, and
    the experience reason iff the toggle is on and the 9th answer is at
    least 4. *)
Theorem gating_rule (inputs : Inputs) :
  complete inputs = true ->
  exists r, compute_results inputs = OK r /\ gating_invariant inputs r.
Proof.
  intros H.
  destruct (compute_results_complete _ H)
    as (p1 & p2 & p3 & p4 & p5 & mb & fb & bl
        & _ & _ & _ & _ & _ & _ & _ & Hbl & Hr).
  eexists. split; [exact Hr |].
  destruct (max_policy_row _ _ Hbl) as (_ & _ & Hs & Ha).
  unfold gating_invariant, assemble.
  cbn [alt_forced_zero_reasons final_limits base_limits capacity_band].
  repeat split.
  - destruct (gating_reasons _ _ _ _) as [| reason reasons]; [congruence |].
    rewrite gate_limits_some by lia. reflexivity.
  - destruct (gating_reasons _ _ _ _) as [| reason reasons]; [congruence |].
    rewrite gate_limits_some by lia. reflexivity.
  - intros E. rewrite E. apply gate_limits_none.
  - do 3 eexists. split; [apply gating_reasons_selected |].
    split; [apply withdrawal_soon |].
    split; [apply String.eqb_eq |].
    rewrite andb_true_iff, geb_4. tauto.
Qed.

Lemma gating_rule_witness :
  complete strongly_agree_input = true
  /\ exists r, compute_results strongly_agree_input = OK r
               /\ gating_invariant strongly_agree_input r.
Proof.
  split; [reflexivity |].
  apply (gating_rule strongly_agree_input). reflexivity.
Defined.

(** C4: the final band is the lower of the risk-attitude band and the
    capacity ceiling in the seven-band order, the override is reported
    exactly when the final band differs from the risk-attitude band, and the
    final band is never above the risk-attitude band. *)
Theorem band_reconciliation (inputs : Inputs) :
  complete inputs = true ->
  exists r, compute_results inputs = OK r /\ reconciled r.
Proof.
  intros H.
  destruct (compute_results_complete _ H)
    as (p1 & p2 & p3 & p4 & p5 & mb & fb & bl
        & _ & _ & _ & _ & _ & _ & Hfb & _ & Hr).
  eexists. split; [exact Hr |].
  destruct (band_at_or_below_inv _ _ _ Hfb) as (i & j & Hi & Hj & _ & Hk).
  unfold reconciled, assemble, band_rank.
  cbn [risk_attitude_band capacity_max_allowed_band final_band override_applied].
  exists i, j, (Z.min i j).
  repeat (split; [assumption || reflexivity |]).
  split; [| lia].
  rewrite negb_true_iff. apply String.eqb_neq.
Qed.

Lemma band_reconciliation_witness :
  complete bold_input = true
  /\ exists r, compute_results bold_input = OK r /\ reconciled r.
Proof.
  split; [reflexivity |].
  apply (band_reconciliation bold_input). reflexivity.
Defined.

Lemma category_by_upper_bound (score : Z) :
  band_by_upper_bound score (category_from_score score).
Proof.
  unfold band_by_upper_bound, category_from_score.
  repeat match goal with
         | |- context [?a <=? ?b] =>
             let E := fresh "E" in
             destruct (a <=? b) eqn:E;
             [apply Z.leb_le in E | apply Z.leb_gt in E]
         end;
    repeat split; intros; first [reflexivity | lia].
Qed.

(** C5: the score is round((rawTotal - 12) / 48 * 100), ties to even, where
    rawTotal adds [r] for a normal-tagged statement and [6 - r] for a
    reverse-tagged one; it lies in 0..100 and its band is the first of
    <=25, <=33, <=44, <=56, <=67, <=79, else, that holds. *)
Theorem attitude_scoring (inputs : Inputs) :
  complete inputs = true ->
  exists r, compute_results inputs = OK r /\ attitude_scored inputs r.
Proof.
  intros H.
  destruct (compute_results_complete _ H)
    as (p1 & p2 & p3 & p4 & p5 & mb & fb & bl & _ & _ & _ & _ & _ & _ & _ & _ & Hr).
  eexists. split; [exact Hr |].
  pose proof (raw_total_range _ (complete_answers _ H)) as R.
  unfold attitude_scored, assemble. cbn [risk_attitude_score risk_attitude_band].
  split; [exact R |]. split; [reflexivity |].
  split; [apply round_half_even_range; exact R | apply category_by_upper_bound].
Qed.

Lemma attitude_scoring_witness :
  complete strongly_agree_input = true
  /\ exists r, compute_results strongly_agree_input = OK r
               /\ attitude_scored strongly_agree_input r.
Proof.
  split; [reflexivity |].
  apply (attitude_scoring strongly_agree_input). reflexivity.
Defined.

(** ** Capacity for loss *)

Lemma list_index_mem (l : list string) (x : string) (i : Z) :
  list_index l x = OK i -> list_mem x l = true.
Proof.
  intros H. apply list_index_nth in H. destruct H as [_ N].
  apply list_mem_true_iff. eapply nth_error_In. exact N.
Qed.

Lemma capacity_ceiling (points : Z) (mb : string) :
  dict_get CAPACITY_MAX_BAND (capacity_band_of points) = OK mb ->
  (capacity_band_of points = "Low capacity for loss" ->
   mb = "Moderately Cautious (34–44)")
  /\ (capacity_band_of points = "Medium capacity for loss" ->
      mb = "Balanced (45–56)")
  /\ (capacity_band_of points = "High capacity for loss" ->
      mb = "Very Adventurous (80–100)").
Proof.
  intros H. repeat split; intros E; rewrite E in H;
    apply OK_inj in H; now subst mb.
Qed.

(** The capacity stage in terms of the positions of the five answers. *)
Lemma capacity_stage (inputs : Inputs) :
  complete inputs = true ->
  exists i1 i2 i3 i4 i5 r,
    list_index EMERGENCY_OPTIONS (emergency_months inputs) = OK i1
    /\ list_index INCOME_OPTIONS (income_stability inputs) = OK i2
    /\ list_index WITHDRAWAL_OPTIONS (withdrawal_need inputs) = OK i3
    /\ list_index DEBT_OPTIONS (debt_burden inputs) = OK i4
    /\ list_index DEPENDENCE_OPTIONS (portfolio_dependence inputs) = OK i5
    /\ (0 <= i1 <= 3 /\ 0 <= i2 <= 3 /\ 0 <= i3 <= 3 /\ 0 <= i4 <= 3 /\ 0 <= i5 <= 3)
    /\ dict_get EMERGENCY_POINTS (emergency_months inputs) = OK (2 * i1)
    /\ dict_get INCOME_POINTS (income_stability inputs) = OK (2 * i2)
    /\ dict_get WITHDRAWAL_POINTS (withdrawal_need inputs) = OK (2 * i3)
    /\ dict_get DEBT_POINTS (debt_burden inputs) = OK (2 * i4)
    /\ dict_get DEPENDENCE_POINTS (portfolio_dependence inputs) = OK (2 * i5)
    /\ compute_results inputs = OK r
    /\ cap_points r = 2 * i1 + 2 * i2 + 2 * i3 + 2 * i4 + 2 * i5
    /\ capacity_band r = capacity_band_of (cap_points r)
    /\ dict_get CAPACITY_MAX_BAND (capacity_band_of (cap_points r)) =
       OK (capacity_max_allowed_band r).
Proof.
  intros H.
  destruct (compute_results_complete _ H)
    as (p1 & p2 & p3 & p4 & p5 & mb & fb & bl
        & H1 & H2 & H3 & H4 & H5 & Hmb & _ & _ & Hr).
  destruct (complete_inv _ H) as (_ & M1 & M2 & M3 & M4 & M5).
  destruct (emergency_scored _ M1) as (i1 & I1 & E1 & R1).
  destruct (income_scored _ M2) as (i2 & I2 & E2 & R2).
  destruct (withdrawal_scored _ M3) as (i3 & I3 & E3 & R3).
  destruct (debt_scored _ M4) as (i4 & I4 & E4 & R4).
  destruct (dependence_scored _ M5) as (i5 & I5 & E5 & R5).
  rewrite E1 in H1. apply OK_inj in H1. subst p1.
  rewrite E2 in H2. apply OK_inj in H2. subst p2.
  rewrite E3 in H3. apply OK_inj in H3. subst p3.
  rewrite E4 in H4. apply OK_inj in H4. subst p4.
  rewrite E5 in H5. apply OK_inj in H5. subst p5.
  exists i1, i2, i3, i4, i5. eexists.
  repeat (split; [eassumption |]).
  split; [tauto |].
  repeat (split; [eassumption |]).
  unfold assemble. cbn [cap_points capacity_band capacity_max_allowed_band].
  repeat split. exact Hmb.
Qed.

Lemma in_scores (i : Z) : 0 <= i <= 3 -> In (2 * i) [0; 2; 4; 6].
Proof.
  intros H. assert (i = 0 \/ i = 1 \/ i = 2 \/ i = 3) as C by lia.
  destruct C as [-> | [-> | [-> | ->]]]; cbn; auto.
Qed.

(** C6: each capacity answer scores one of 0, 2, 4, 6, rising through the
    option list from 0 for the lowest-capacity option to 6 for the highest;
    the points are their sum, even and in 0..30; the band is Low up to 10,
    Medium up to 20, High above; and the ceiling is Moderately Cautious for
    Low, Balanced for Medium, Very Adventurous for High. *)
Theorem capacity_scoring (inputs : Inputs) :
  complete inputs = true ->
  exists r, compute_results inputs = OK r /\ capacity_scored inputs r.
Proof.
  intros H.
  destruct (capacity_stage _ H)
    as (i1 & i2 & i3 & i4 & i5 & r & _ & _ & _ & _ & _ & R
        & E1 & E2 & E3 & E4 & E5 & Hr & Hp & Hb & Hmb).
  exists r. split; [exact Hr |].
  unfold capacity_scored.
  do 5 (split; [reflexivity |]).
  split.
  { exists (2 * i1), (2 * i2), (2 * i3), (2 * i4), (2 * i5).
    repeat (split; [assumption |]). split; [| exact Hp].
    repeat (apply Forall_cons; [apply in_scores; lia |]). apply Forall_nil. }
  split.
  { rewrite Hp.
    replace (2 * i1 + 2 * i2 + 2 * i3 + 2 * i4 + 2 * i5)
      with (2 * (i1 + i2 + i3 + i4 + i5)) by lia.
    rewrite Z.even_mul. reflexivity. }
  split; [lia |].
  rewrite Hb.
  destruct (capacity_band_cases (cap_points r)) as [[P E] | [[P E] | [P E]]];
    (repeat split; [intros; first [exact E | lia] ..
                   | apply (capacity_ceiling _ _ Hmb)
                   | apply (capacity_ceiling _ _ Hmb)
                   | apply (capacity_ceiling _ _ Hmb)]).
Qed.

Lemma capacity_scoring_witness :
  complete guarded_input = true
  /\ exists r, compute_results guarded_input = OK r
               /\ capacity_scored guarded_input r.
Proof.
  split; [reflexivity |].
  apply (capacity_scoring guarded_input). reflexivity.
Defined.

Lemma capacity_monotone (p q : Z) (mbp mbq : string) :
  p <= q ->
  dict_get CAPACITY_MAX_BAND (capacity_band_of p) = OK mbp ->
  dict_get CAPACITY_MAX_BAND (capacity_band_of q) = OK mbq ->
  (exists u v,
      list_index CAPACITY_ORDER (capacity_band_of p) = OK u
      /\ list_index CAPACITY_ORDER (capacity_band_of q) = OK v
      /\ u <= v)
  /\ (exists x y, band_rank mbp x /\ band_rank mbq y /\ x <= y).
Proof.
  intros L Hp Hq. unfold band_rank.
  destruct (capacity_band_cases p) as [[Pp Ep] | [[Pp Ep] | [Pp Ep]]];
    destruct (capacity_band_cases q) as [[Pq Eq] | [[Pq Eq] | [Pq Eq]]];
    try (exfalso; lia);
    rewrite Ep in *; rewrite Eq in *;
    apply OK_inj in Hp; apply OK_inj in Hq; subst mbp mbq;
    split; do 2 eexists;
    (split; [vm_compute; reflexivity | split; [vm_compute; reflexivity | lia]]).
Qed.

Section OneAnswerRaised.

Variable a : Inputs.
Hypothesis a_complete : complete a = true.

Lemma complete_with_emergency_months (x : string) :
  list_mem x EMERGENCY_OPTIONS = true -> complete (with_emergency_months a x) = true.
Proof.
  intros Hx. destruct (complete_inv _ a_complete) as (A & M1 & M2 & M3 & M4 & M5).
  unfold complete, with_emergency_months.
  cbn [attitude_choices emergency_months income_stability withdrawal_need
         debt_burden portfolio_dependence].
  now rewrite A, Hx, M2, M3, M4, M5.
Qed.

Lemma complete_with_income_stability (x : string) :
  list_mem x INCOME_OPTIONS = true -> complete (with_income_stability a x) = true.
Proof.
  intros Hx. destruct (complete_inv _ a_complete) as (A & M1 & M2 & M3 & M4 & M5).
  unfold complete, with_income_stability.
  cbn [attitude_choices emergency_months income_stability withdrawal_need
         debt_burden portfolio_dependence].
  now rewrite A, Hx, M1, M3, M4, M5.
Qed.

Lemma complete_with_withdrawal_need (x : string) :
  list_mem x WITHDRAWAL_OPTIONS = true -> complete (with_withdrawal_need a x) = true.
Proof.
  intros Hx. destruct (complete_inv _ a_complete) as (A & M1 & M2 & M3 & M4 & M5).
  unfold complete, with_withdrawal_need.
  cbn [attitude_choices emergency_months income_stability withdrawal_need
         debt_burden portfolio_dependence].
  now rewrite A, Hx, M1, M2, M4, M5.
Qed.

Lemma complete_with_debt_burden (x : string) :
  list_mem x DEBT_OPTIONS = true -> complete (with_debt_burden a x) = true.
Proof.
  intros Hx. destruct (complete_inv _ a_complete) as (A & M1 & M2 & M3 & M4 & M5).
  unfold complete, with_debt_burden.
  cbn [attitude_choices emergency_months income_stability withdrawal_need
         debt_burden portfolio_dependence].
  now rewrite A, Hx, M1, M2, M3, M5.
Qed.

Lemma complete_with_portfolio_dependence (x : string) :
  list_mem x DEPENDENCE_OPTIONS = true ->
  complete (with_portfolio_dependence a x) = true.
Proof.
  intros Hx. destruct (complete_inv _ a_complete) as (A & M1 & M2 & M3 & M4 & M5).
  unfold complete, with_portfolio_dependence.
  cbn [attitude_choices emergency_months income_stability withdrawal_need
         debt_burden portfolio_dependence].
  now rewrite A, Hx, M1, M2, M3, M4.
Qed.

Lemma raises_capacity_complete (b : Inputs) :
  raises_capacity a b -> complete b = true.
Proof.
  intros [x (i & j & _ & Hj & _) | x (i & j & _ & Hj & _)
          | x (i & j & _ & Hj & _) | x (i & j & _ & Hj & _)
          | x (i & j & _ & Hj & _)];
    apply list_index_mem in Hj;
    auto using complete_with_emergency_months, complete_with_income_stability,
      complete_with_withdrawal_need, complete_with_debt_burden,
      complete_with_portfolio_dependence.
Qed.

End OneAnswerRaised.

Ltac same_lookup :=
  repeat match goal with
         | A : list_index ?l ?x = OK ?u, B : list_index ?l ?x = OK ?v |- _ =>
             rewrite A in B; apply OK_inj in B; subst v
         end.

(** C7: raising one capacity answer to a higher-capacity option of its
    question, everything else unchanged, lowers neither the capacity
    points, nor the capacity band in the order Low, Medium, High, nor the
    position of the ceiling band in the seven-band order. *)
Theorem capacity_monotonicity (a b : Inputs) :
  complete a = true ->
  raises_capacity a b ->
  exists ra rb,
    compute_results a = OK ra /\ compute_results b = OK rb
    /\ capacity_not_lower ra rb.
Proof.
  intros Ha Hstep.
  pose proof (raises_capacity_complete _ Ha _ Hstep) as Hb.
  destruct (capacity_stage _ Ha)
    as (i1 & i2 & i3 & i4 & i5 & ra & I1 & I2 & I3 & I4 & I5 & _
        & _ & _ & _ & _ & _ & Hra & Pa & Ba & Ma).
  destruct (capacity_stage _ Hb)
    as (j1 & j2 & j3 & j4 & j5 & rb & J1 & J2 & J3 & J4 & J5 & _
        & _ & _ & _ & _ & _ & Hrb & Pb & Bb & Mb).
  exists ra, rb. split; [exact Hra |]. split; [exact Hrb |].
  assert (cap_points ra <= cap_points rb) as L.
  { rewrite Pa, Pb.
    destruct Hstep as [x (i & j & Hi & Hj & Hlt) | x (i & j & Hi & Hj & Hlt)
                       | x (i & j & Hi & Hj & Hlt) | x (i & j & Hi & Hj & Hlt)
                       | x (i & j & Hi & Hj & Hlt)];
      unfold with_emergency_months, with_income_stability, with_withdrawal_need,
        with_debt_burden, with_portfolio_dependence in *;
      cbn [emergency_months income_stability withdrawal_need debt_burden
             portfolio_dependence] in *;
      same_lookup; lia. }
  unfold capacity_not_lower. split; [exact L |].
  rewrite Ba, Bb. exact (capacity_monotone _ _ _ _ L Ma Mb).
Qed.

Lemma capacity_monotonicity_witness :
  complete guarded_input = true
  /\ raises_capacity guarded_input
                     (with_withdrawal_need guarded_input "Very unlikely")
  /\ exists ra rb,
      compute_results guarded_input = OK ra
      /\ compute_results (with_withdrawal_need guarded_input "Very unlikely") = OK rb
      /\ capacity_not_lower ra rb.
Proof.
  assert (raises_capacity guarded_input
            (with_withdrawal_need guarded_input "Very unlikely")) as S.
  { apply raise_withdrawal. exists 0, 3.
    split; [reflexivity |]. split; [reflexivity | lia]. }
  split; [reflexivity |]. split; [exact S |].
  apply (capacity_monotonicity guarded_input); [reflexivity | exact S].
Defined.

(** ** Values outside the enumerated sets *)

Lemma forallb_false_exists {A} (f : A -> bool) (l : list A) :
  forallb f l = false -> exists x, In x l /\ f x = false.
Proof.
  induction l as [| a l IH]; cbn; intros H; [discriminate H |].
  destruct (f a) eqn:E.
  - destruct (IH H) as (x & Hx & Fx). eauto.
  - eauto.
Qed.

Lemma dict_get_defined {V} (d : list (string * V)) (k : string) (v : V) :
  dict_get d k = OK v -> list_mem k (map fst d) = true.
Proof.
  intros H. destruct (list_mem k (map fst d)) eqn:E; [reflexivity |].
  rewrite (dict_get_missing _ _ E) in H. discriminate H.
Qed.

Lemma stray_choice_raises (inputs : Inputs) (c : string) :
  List.length (attitude_choices inputs) = 12%nat ->
  In c (attitude_choices inputs) -> list_mem c LIKERT = false ->
  exists key, compute_results inputs = Raise (KeyError key).
Proof.
  intros L Hin Hc.
  assert (exists z, In z (combine ITEMS (attitude_choices inputs))
                    /\ list_mem (snd z) LIKERT = false) as Hz.
  { assert (In c (map snd (combine ITEMS (attitude_choices inputs)))) as M.
    { rewrite map_snd_combine. change (List.length ITEMS) with 12%nat.
      rewrite <- L, firstn_all. exact Hin. }
    apply in_map_iff in M. destruct M as (z & <- & Hz). eauto. }
  destruct (attitude_loop_invalid _ Hz (mkLoop 0 [] [])) as (key & E).
  exists key. unfold compute_results. rewrite E. reflexivity.
Qed.

Ltac lookup_step E :=
  match goal with
  | |- context [bind (dict_get ?d ?x) _] =>
      destruct (dict_get d x) eqn:E;
      [apply dict_get_raises in E; subst; cbn [bind]; eauto
      | apply dict_get_defined in E; cbn [bind]]
  end.

(** C8: when a selection or a capacity answer lies outside its enumerated
    set the run ends in the error of the missed table lookup and yields no
    result. *)
Theorem stray_value_raises (inputs : Inputs) :
  List.length (attitude_choices inputs) = 12%nat ->
  out_of_enum inputs ->
  (exists e, compute_results inputs = Raise e /\ InvalidInput e)
  /\ forall r, compute_results inputs <> OK r.
Proof.
  intros L Hout.
  assert (exists key, compute_results inputs = Raise (KeyError key)) as (key & E).
  { destruct (forallb (fun c => list_mem c LIKERT) (attitude_choices inputs)) eqn:F.
    - assert (likert_answers (attitude_choices inputs) = true) as HA
          by (unfold likert_answers; rewrite L, F; reflexivity).
      destruct (attitude_stage _ HA) as [Hloop Hnorm].
      unfold compute_results. cbv zeta. rewrite Hloop.
      cbn [bind OK st_responses_scored]. rewrite Hnorm. cbn [bind OK].
      lookup_step E1. lookup_step E2. lookup_step E3. lookup_step E4.
      lookup_step E5.
      exfalso. rewrite forallb_forall in F.
      change (map fst EMERGENCY_POINTS) with EMERGENCY_OPTIONS in E1.
      change (map fst INCOME_POINTS) with INCOME_OPTIONS in E2.
      change (map fst WITHDRAWAL_POINTS) with WITHDRAWAL_OPTIONS in E3.
      change (map fst DEBT_POINTS) with DEBT_OPTIONS in E4.
      change (map fst DEPENDENCE_POINTS) with DEPENDENCE_OPTIONS in E5.
      destruct Hout as [(c & Hin & Hc) | [M | [M | [M | [M | M]]]]];
        [rewrite (F _ Hin) in Hc; discriminate Hc | congruence ..].
    - destruct (forallb_false_exists _ _ F) as (c & Hin & Hc).
      exact (stray_choice_raises _ _ L Hin Hc). }
  split.
  - exists (KeyError key). split; [exact E | exists key; reflexivity].
  - intros r Hr. rewrite E in Hr. discriminate Hr.
Qed.

Lemma stray_value_raises_witness :
  List.length (attitude_choices stray_input) = 12%nat
  /\ out_of_enum stray_input
  /\ (exists e, compute_results stray_input = Raise e /\ InvalidInput e)
  /\ forall r, compute_results stray_input <> OK r.
Proof.
  assert (out_of_enum stray_input) as O.
  { left. exists "Maybe". split; [left; reflexivity | reflexivity]. }
  split; [reflexivity |]. split; [exact O |].
  apply (stray_value_raises stray_input); [reflexivity | exact O].
Defined.

(** ** Scope booleans *)

Lemma same_but_scope_complete (a b : Inputs) :
  complete a = true -> same_but_scope a b -> complete b = true.
Proof.
  unfold complete. intros H (<- & <- & <- & <- & <- & <- & _). exact H.
Qed.

(** C9: two complete inputs that differ only in the three scope booleans
    give results equal in every field but [alts_in_scope], which lists
    "Public REITs", "Commodity funds" and the internal-classification note,
    in this order, each exactly when its boolean is set. *)
Theorem scope_is_descriptive (a b : Inputs) :
  complete a = true ->
  same_but_scope a b ->
  exists ra rb,
    compute_results a = OK ra /\ compute_results b = OK rb
    /\ same_but_alts ra rb /\ scope_listed a ra /\ scope_listed b rb.
Proof.
  intros Ha S. pose proof (same_but_scope_complete _ _ Ha S) as Hb.
  destruct (compute_results_complete _ Ha)
    as (p1 & p2 & p3 & p4 & p5 & mb & fb & bl
        & A1 & A2 & A3 & A4 & A5 & Amb & Afb & Abl & Hra).
  destruct (compute_results_complete _ Hb)
    as (q1 & q2 & q3 & q4 & q5 & mb' & fb' & bl'
        & B1 & B2 & B3 & B4 & B5 & Bmb & Bfb & Bbl & Hrb).
  destruct S as (Sc & S1 & S2 & S3 & S4 & S5 & Sg).
  rewrite <- S1, A1 in B1. apply OK_inj in B1. subst q1.
  rewrite <- S2, A2 in B2. apply OK_inj in B2. subst q2.
  rewrite <- S3, A3 in B3. apply OK_inj in B3. subst q3.
  rewrite <- S4, A4 in B4. apply OK_inj in B4. subst q4.
  rewrite <- S5, A5 in B5. apply OK_inj in B5. subst q5.
  rewrite Amb in Bmb. apply OK_inj in Bmb. subst mb'.
  rewrite <- Sc, Afb in Bfb. apply OK_inj in Bfb. subst fb'.
  rewrite Abl in Bbl. apply OK_inj in Bbl. subst bl'.
  do 2 eexists. split; [exact Hra |]. split; [exact Hrb |].
  unfold same_but_alts, scope_listed, assemble, raw_answer.
  cbn [risk_attitude_score risk_attitude_band neutral_count cap_points
         capacity_band capacity_max_allowed_band final_band override_applied
         base_limits final_limits alt_forced_zero_reasons flags alts_in_scope
         capacity_inputs].
  rewrite <- Sc, <- S1, <- S2, <- S3, <- S4, <- S5, <- Sg.
  repeat split.
Qed.

Lemma scope_is_descriptive_witness :
  complete bold_input = true
  /\ same_but_scope bold_input bold_other_scope
  /\ exists ra rb,
      compute_results bold_input = OK ra
      /\ compute_results bold_other_scope = OK rb
      /\ same_but_alts ra rb
      /\ scope_listed bold_input ra /\ scope_listed bold_other_scope rb.
Proof.
  assert (same_but_scope bold_input bold_other_scope) as S
      by (repeat split).
  split; [reflexivity |]. split; [exact S |].
  apply (scope_is_descriptive bold_input bold_other_scope);
    [reflexivity | exact S].
Defined.

(** ** Allocation caps *)

Lemma max_policy_rows :
  Forall (fun row : string * Limits => caps_total (snd row) = 100) MAX_POLICY.
Proof. repeat constructor. Qed.

(** C10: the base caps and the final caps each add up to 100: every row
    of the policy table does, gating moves the whole alternatives cap into
    sukuk, the cap at 100 never cuts anything off, and the equity cap is the
    same before and after gating. *)
Theorem caps_add_up (inputs : Inputs) :
  complete inputs = true ->
  exists r, compute_results inputs = OK r /\ caps_sum_to_100 r.
Proof.
  intros H.
  destruct (compute_results_complete _ H)
    as (p1 & p2 & p3 & p4 & p5 & mb & fb & bl
        & _ & _ & _ & _ & _ & _ & _ & Hbl & Hr).
  eexists. split; [exact Hr |].
  destruct (max_policy_row _ _ Hbl) as (Hsum & He & Hs & Ha).
  unfold caps_sum_to_100, caps_total, assemble.
  cbn [base_limits final_limits].
  split; [exact max_policy_rows |]. split; [exact Hsum |].
  destruct (gating_reasons _ _ _ _) as [| reason reasons].
  - rewrite gate_limits_none. repeat split; lia.
  - rewrite gate_limits_some by lia.
    cbn [max_equity max_sukuk max_alternatives].
    rewrite Z.min_r by lia. repeat split; lia.
Qed.

Lemma caps_add_up_witness :
  complete guarded_input = true
  /\ exists r, compute_results guarded_input = OK r /\ caps_sum_to_100 r.
Proof.
  split; [reflexivity |].
  apply (caps_add_up guarded_input). reflexivity.
Defined.

(** ** Inputs of any length *)

Lemma combine_firstn_r {A B} (l : list A) (l' : list B) :
  combine l (firstn (List.length l) l') = combine l l'.
Proof.
  revert l'. induction l as [| a l IH]; intros [| b l']; cbn; try reflexivity.
  now rewrite IH.
Qed.

Lemma list_get_out {A} (l : list A) (i : Z) :
  Z.of_nat (List.length l) <= i -> list_get l i = Raise IndexError.
Proof.
  intros H. unfold list_get.
  destruct (i <? 0) eqn:E; [apply Z.ltb_lt in E; lia |].
  rewrite E.
  destruct (nth_error l (Z.to_nat i)) eqn:N; [| reflexivity].
  assert (nth_error l (Z.to_nat i) <> None) as N' by congruence.
  apply nth_error_Some in N'. lia.
Qed.

Lemma list_get_in {A} (l : list A) (i : Z) :
  0 <= i < Z.of_nat (List.length l) -> exists x, list_get l i = OK x.
Proof.
  intros H. destruct (nth_error l (Z.to_nat i)) eqn:N.
  - eexists. apply list_get_nth; [lia | exact N].
  - apply nth_error_None in N. lia.
Qed.

Lemma capacity_answers_valid_inv (inputs : Inputs) :
  capacity_answers_valid inputs = true ->
  list_mem (emergency_months inputs) EMERGENCY_OPTIONS = true
  /\ list_mem (income_stability inputs) INCOME_OPTIONS = true
  /\ list_mem (withdrawal_need inputs) WITHDRAWAL_OPTIONS = true
  /\ list_mem (debt_burden inputs) DEBT_OPTIONS = true
  /\ list_mem (portfolio_dependence inputs) DEPENDENCE_OPTIONS = true.
Proof.
  unfold capacity_answers_valid. rewrite !andb_true_iff. tauto.
Qed.

Lemma raw_values_length (zs : list ((string * bool) * string)) :
  List.length (raw_values zs) = List.length zs.
Proof. unfold raw_values. apply length_map. Qed.

(** With valid answers the run gets as far as the two reads of
    [responses_raw]; whether they succeed depends on its length alone. *)
Lemma compute_results_reads (inputs : Inputs) :
  forallb (fun c => list_mem c LIKERT) (firstn 12 (attitude_choices inputs)) = true ->
  capacity_answers_valid inputs = true ->
  let zs := combine ITEMS (attitude_choices inputs) in
  exists score points mb fb bl,
    compute_results inputs =
    (raw9 <- list_get (raw_values zs) 8 ;;
     raw12 <- list_get (raw_values zs) 11 ;;
     OK (assemble inputs score (neutral_of zs) points mb fb bl raw9 raw12)).
Proof.
  intros F C zs. subst zs.
  pose proof (all_likert_combine ITEMS _ F) as A.
  destruct (capacity_answers_valid_inv _ C) as (M1 & M2 & M3 & M4 & M5).
  destruct (emergency_scored _ M1) as (i1 & _ & E1 & _).
  destruct (income_scored _ M2) as (i2 & _ & E2 & _).
  destruct (withdrawal_scored _ M3) as (i3 & _ & E3 & _).
  destruct (debt_scored _ M4) as (i4 & _ & E4 & _).
  destruct (dependence_scored _ M5) as (i5 & _ & E5 & _).
  assert (0 <= list_sum (scored_values (combine ITEMS (attitude_choices inputs))) <= 60)
    as R.
  { pose proof (list_sum_bounds 1 5 _ (scored_values_range _ A)) as B.
    unfold scored_values in B. rewrite length_map, length_combine in B.
    change (List.length ITEMS) with 12%nat in B. unfold scored_values. lia. }
  unfold compute_results. cbv zeta.
  rewrite (attitude_loop_valid _ A).
  cbn [bind OK st_responses_scored st_responses_raw st_neutral_count app Z.add].
  rewrite py_sum_list_sum, (normalise_score_exact _ R). cbn [bind OK].
  rewrite E1. cbn [bind OK]. rewrite E2. cbn [bind OK]. rewrite E3. cbn [bind OK].
  rewrite E4. cbn [bind OK]. rewrite E5. cbn [bind OK].
  match goal with
  | |- context [dict_get CAPACITY_MAX_BAND (capacity_band_of ?p)] =>
      destruct (capacity_max_band_total p) as (mb & j & Hmb & Hj)
  end.
  rewrite Hmb. cbn [bind OK].
  match goal with
  | |- context [band_at_or_below (category_from_score ?s) mb] =>
      destruct (category_from_score_index s) as (i & Hi & _);
      pose proof (band_at_or_below_spec _ _ _ _ Hi Hj) as Hfb;
      assert (exists k, list_index BAND_ORDER
                          (if i <=? j then category_from_score s else mb) = OK k)
        as (k & Hk) by (destruct (i <=? j); eauto)
  end.
  rewrite Hfb. cbn [bind OK].
  destruct (max_policy_total _ _ Hk) as (bl & Hbl).
  do 5 eexists.
  destruct (list_get (raw_values (combine ITEMS (attitude_choices inputs))) 8)
    as [e | raw9]; cbn [bind]; [reflexivity |].
  rewrite Hbl. cbn [bind OK]. reflexivity.
Qed.

Lemma combine_items_min (choices : list string) :
  List.length (combine ITEMS choices) = Nat.min 12 (List.length choices).
Proof. rewrite length_combine. reflexivity. Qed.

Lemma stray_first_twelve (inputs : Inputs) :
  forallb (fun c => list_mem c LIKERT) (firstn 12 (attitude_choices inputs)) = false ->
  exists key, compute_results inputs = Raise (KeyError key).
Proof.
  intros F. destruct (forallb_false_exists _ _ F) as (c & Hin & Hc).
  change 12%nat with (List.length ITEMS) in Hin.
  rewrite <- map_snd_combine in Hin. apply in_map_iff in Hin.
  destruct Hin as (z & <- & Hz).
  destruct (attitude_loop_invalid _ (ex_intro _ z (conj Hz Hc)) (mkLoop 0 [] []))
    as (key & E).
  exists key. unfold compute_results. rewrite E. reflexivity.
Qed.

Lemma stray_capacity_raises (inputs : Inputs) :
  forallb (fun c => list_mem c LIKERT) (firstn 12 (attitude_choices inputs)) = true ->
  capacity_answers_valid inputs = false ->
  exists key, compute_results inputs = Raise (KeyError key).
Proof.
  intros F C.
  pose proof (all_likert_combine ITEMS _ F) as A.
  assert (0 <= list_sum (scored_values (combine ITEMS (attitude_choices inputs))) <= 60)
    as R.
  { pose proof (list_sum_bounds 1 5 _ (scored_values_range _ A)) as B.
    unfold scored_values in B. rewrite length_map, length_combine in B.
    change (List.length ITEMS) with 12%nat in B. unfold scored_values. lia. }
  unfold compute_results. cbv zeta.
  rewrite (attitude_loop_valid _ A).
  cbn [bind OK st_responses_scored st_responses_raw st_neutral_count app Z.add].
  rewrite py_sum_list_sum, (normalise_score_exact _ R). cbn [bind OK].
  lookup_step E1. lookup_step E2. lookup_step E3. lookup_step E4. lookup_step E5.
  exfalso. unfold capacity_answers_valid in C.
  change (map fst EMERGENCY_POINTS) with EMERGENCY_OPTIONS in E1.
  change (map fst INCOME_POINTS) with INCOME_OPTIONS in E2.
  change (map fst WITHDRAWAL_POINTS) with WITHDRAWAL_OPTIONS in E3.
  change (map fst DEBT_POINTS) with DEBT_OPTIONS in E4.
  change (map fst DEPENDENCE_POINTS) with DEPENDENCE_OPTIONS in E5.
  rewrite E1, E2, E3, E4, E5 in C. discriminate C.
Qed.

Lemma short_list_raises (inputs : Inputs) :
  forallb (fun c => list_mem c LIKERT) (firstn 12 (attitude_choices inputs)) = true ->
  capacity_answers_valid inputs = true ->
  (List.length (attitude_choices inputs) < 12)%nat ->
  compute_results inputs = Raise IndexError.
Proof.
  intros F C L.
  destruct (compute_results_reads _ F C) as (score & points & mb & fb & bl & E).
  rewrite E.
  assert (List.length (raw_values (combine ITEMS (attitude_choices inputs))) < 12)%nat
    as Lr by (rewrite raw_values_length, combine_items_min; lia).
  destruct (list_get (raw_values (combine ITEMS (attitude_choices inputs))) 8)
    as [e | raw9] eqn:G; cbn [bind].
  - destruct (Z_le_gt_dec
                (Z.of_nat (List.length
                             (raw_values (combine ITEMS (attitude_choices inputs))))) 8)
      as [Le | Gt].
    + rewrite (list_get_out _ _ Le) in G. injection G as <-. reflexivity.
    + destruct (list_get_in (raw_values (combine ITEMS (attitude_choices inputs))) 8)
        as (x & Hx); [lia | rewrite Hx in G; discriminate G].
  - rewrite list_get_out by lia. reflexivity.
Qed.

Lemma long_list_runs (inputs : Inputs) :
  forallb (fun c => list_mem c LIKERT) (firstn 12 (attitude_choices inputs)) = true ->
  capacity_answers_valid inputs = true ->
  (12 <= List.length (attitude_choices inputs))%nat ->
  exists r, compute_results inputs = OK r.
Proof.
  intros F C L.
  destruct (compute_results_reads _ F C) as (score & points & mb & fb & bl & E).
  rewrite E.
  assert (List.length (raw_values (combine ITEMS (attitude_choices inputs))) = 12)%nat
    as Lr by (rewrite raw_values_length, combine_items_min; lia).
  destruct (list_get_in (raw_values (combine ITEMS (attitude_choices inputs))) 8)
    as (x & ->); [lia |].
  destruct (list_get_in (raw_values (combine ITEMS (attitude_choices inputs))) 11)
    as (y & ->); [lia |].
  cbn [bind OK]. eexists. reflexivity.
Qed.

(** X1: a run returns a result exactly when there are at least twelve
    selections, the first twelve are Likert labels and the five capacity
    answers come from their option lists. *)
Theorem success_domain (inputs : Inputs) :
  (exists r, compute_results inputs = OK r) <-> runnable inputs = true.
Proof.
  unfold runnable. rewrite !andb_true_iff, Nat.leb_le. split.
  - intros (r & Hr).
    destruct (forallb (fun c => list_mem c LIKERT)
                      (firstn 12 (attitude_choices inputs))) eqn:F.
    2:{ destruct (stray_first_twelve _ F) as (key & E).
        rewrite E in Hr. discriminate Hr. }
    destruct (capacity_answers_valid inputs) eqn:C.
    2:{ destruct (stray_capacity_raises _ F C) as (key & E).
        rewrite E in Hr. discriminate Hr. }
    repeat split.
    destruct (Nat.le_gt_cases 12 (List.length (attitude_choices inputs)))
      as [L | L]; [exact L |].
    rewrite (short_list_raises _ F C L) in Hr. discriminate Hr.
  - intros [[L F] C]. exact (long_list_runs _ F C L).
Qed.

(** X2: a run that returns no result ended in one of two errors: the
    [KeyError] of a table lookup when one of the first twelve selections or
    a capacity answer is outside its set, and otherwise, the answers being
    valid but fewer than twelve, the [IndexError] of reading
    [responses_raw]. *)
Theorem failure_kinds (inputs : Inputs) :
  runnable inputs = false ->
  if forallb (fun c => list_mem c LIKERT) (firstn 12 (attitude_choices inputs))
     && capacity_answers_valid inputs
  then compute_results inputs = Raise IndexError
  else exists key, compute_results inputs = Raise (KeyError key).
Proof.
  unfold runnable. intros H.
  destruct (forallb (fun c => list_mem c LIKERT)
                    (firstn 12 (attitude_choices inputs))) eqn:F;
    cbn [andb]; [| exact (stray_first_twelve _ F)].
  destruct (capacity_answers_valid inputs) eqn:C;
    [| exact (stray_capacity_raises _ F C)].
  rewrite !andb_true_r in H. apply Nat.leb_gt in H.
  exact (short_list_raises _ F C H).
Qed.

Lemma failure_kinds_witness :
  runnable short_input = false
  /\ compute_results short_input = Raise IndexError.
Proof.
  split; [reflexivity |].
  apply (failure_kinds short_input). reflexivity.
Defined.

(** X3: selections after the twelfth are never read: cutting the list down
    to its first twelve entries changes nothing, whatever the dropped
    entries were. *)
Theorem extra_selections_ignored (inputs : Inputs) :
  compute_results
    (with_attitude_choices inputs (firstn 12 (attitude_choices inputs)))
  = compute_results inputs.
Proof.
  unfold compute_results, with_attitude_choices.
  cbn [attitude_choices emergency_months income_stability withdrawal_need
         debt_burden portfolio_dependence alt_scope_reits alt_scope_commodities
         alt_equities_toggle limited_experience_gate].
  change 12%nat with (List.length ITEMS).
  rewrite combine_firstn_r. reflexivity.
Qed.

(** ** Flags and neutral answers *)

Lemma robustness_flags_selected (neutral score raw12 : Z) (limited : bool) :
  robustness_flags neutral score raw12 limited =
  selected_flags (neutral >=? 6) ((score >=? 68) && (raw12 >=? 4))
                 ((score >=? 68) && limited).
Proof. reflexivity. Qed.

Lemma filter_snd_length {A B} (p : B -> bool) (zs : list (A * B)) :
  List.length (filter (fun z => p (snd z)) zs)
  = List.length (filter p (map snd zs)).
Proof.
  induction zs as [| [a b] zs IH]; cbn; [reflexivity |].
  destruct (p b); cbn; now rewrite IH.
Qed.

(** X4: the flags are, in this order, the neutral-answers flag iff six or
    more selections are neutral, the discomfort flag iff the score is 68 or
    more and the raw 12th answer is at least 4, and the experience flag iff
    the score is 68 or more and the raw 9th answer is at least 4. *)
Theorem flags_rule (inputs : Inputs) :
  complete inputs = true ->
  exists r, compute_results inputs = OK r /\ flags_listed inputs r.
Proof.
  intros H.
  destruct (compute_results_complete _ H)
    as (p1 & p2 & p3 & p4 & p5 & mb & fb & bl & _ & _ & _ & _ & _ & _ & _ & _ & Hr).
  eexists. split; [exact Hr |].
  unfold flags_listed, assemble.
  cbn [flags neutral_count risk_attitude_score].
  do 3 eexists. split; [apply robustness_flags_selected |].
  rewrite !andb_true_iff, !Z.geb_le. tauto.
Qed.

Lemma flags_rule_witness :
  complete timid_input = true
  /\ exists r, compute_results timid_input = OK r /\ flags_listed timid_input r.
Proof.
  split; [reflexivity |].
  apply (flags_rule timid_input). reflexivity.
Defined.

(** X5: the neutral count is the number of selections equal to "No strong
    opinion", whatever the tags of their statements, and lies in 0..12. *)
Theorem neutral_count_rule (inputs : Inputs) :
  complete inputs = true ->
  exists r, compute_results inputs = OK r /\ neutral_counted inputs r.
Proof.
  intros H.
  destruct (compute_results_complete _ H)
    as (p1 & p2 & p3 & p4 & p5 & mb & fb & bl & _ & _ & _ & _ & _ & _ & _ & _ & Hr).
  eexists. split; [exact Hr |].
  destruct (likert_answers_inv _ (complete_answers _ H)) as (L & _).
  unfold neutral_counted, assemble. cbn [neutral_count].
  assert (neutral_of (combine ITEMS (attitude_choices inputs)) =
          Z.of_nat (List.length
                      (filter (fun c => String.eqb c "No strong opinion")
                              (attitude_choices inputs)))) as E.
  { unfold neutral_of.
    rewrite (filter_snd_length (fun c => String.eqb c "No strong opinion")).
    rewrite map_snd_combine. change (List.length ITEMS) with 12%nat.
    rewrite <- L, firstn_all. reflexivity. }
  rewrite E. split; [reflexivity |].
  pose proof (filter_length_le (fun c => String.eqb c "No strong opinion")
                               (attitude_choices inputs)) as B.
  lia.
Qed.

Lemma neutral_count_rule_witness :
  complete timid_input = true
  /\ exists r, compute_results timid_input = OK r
               /\ neutral_counted timid_input r.
Proof.
  split; [reflexivity |].
  apply (neutral_count_rule timid_input). reflexivity.
Defined.

(** ** Score, capacity and caps together *)

Ltac decide_eqb :=
  repeat match goal with
         | |- context [String.eqb ?a ?b] =>
             let v := eval vm_compute in (String.eqb a b) in
             change (String.eqb a b) with v
         end.

(** What the policy lookups give for a score and capacity points. *)
Lemma policy_cases (score points : Z) (mb fb : string) (bl : Limits) :
  dict_get CAPACITY_MAX_BAND (capacity_band_of points) = OK mb ->
  band_at_or_below (category_from_score score) mb = OK fb ->
  dict_get MAX_POLICY fb = OK bl ->
  (0 < max_alternatives bl <-> 57 <= score /\ 20 < points)
  /\ (points <= 20 -> max_alternatives bl = 0 /\ max_equity bl <= 40)
  /\ (points <= 10 -> max_equity bl <= 30)
  /\ max_equity bl <= 70
  /\ (negb (String.eqb fb (category_from_score score)) = true <->
      (points <= 10 /\ 44 < score) \/ (10 < points <= 20 /\ 56 < score))
  /\ (negb (String.eqb fb (category_from_score score)) = true -> fb = mb)
  /\ (negb (String.eqb fb (category_from_score score)) = false ->
      fb = category_from_score score).
Proof.
  intros Hmb Hfb Hbl.
  destruct (capacity_band_cases points) as [[P E] | [[P E] | [P E]]];
    rewrite E in Hmb; apply OK_inj in Hmb; subst mb;
    unfold category_from_score in *;
    repeat match goal with
           | H : context [?a <=? ?b] |- _ =>
               let C := fresh "C" in
               destruct (a <=? b) eqn:C;
               [apply Z.leb_le in C | apply Z.leb_gt in C]
           end;
    apply OK_inj in Hfb; subst fb; apply OK_inj in Hbl; subst bl;
    cbn [max_alternatives max_equity max_sukuk]; decide_eqb; cbn [negb];
    repeat split; intros;
    first [reflexivity | discriminate | lia | (exfalso; lia)].
Qed.

Lemma gate_limits_no_alternatives (base : Limits) (reasons : list string) :
  max_alternatives base = 0 -> gate_limits base reasons = base.
Proof.
  intros H. unfold gate_limits. rewrite H.
  destruct reasons; cbn; now destruct base; cbn in *; subst.
Qed.

(** X6: a final alternatives cap above 0 is granted exactly when the score
    is 57 or more, the capacity points exceed 20 (High capacity) and no
    gating reason fired.  With 20 points or fewer the gates change nothing:
    the final caps are the base caps, these have no alternatives and at most
    40 equity (30 with 10 points or fewer); the equity cap never exceeds
    70. *)
Theorem alternatives_rule (inputs : Inputs) :
  complete inputs = true ->
  exists r, compute_results inputs = OK r /\ alternatives_reserved r.
Proof.
  intros H.
  destruct (compute_results_complete _ H)
    as (p1 & p2 & p3 & p4 & p5 & mb & fb & bl
        & _ & _ & _ & _ & _ & Hmb & Hfb & Hbl & Hr).
  eexists. split; [exact Hr |].
  destruct (policy_cases _ _ _ _ _ Hmb Hfb Hbl)
    as (Halt & Hmed & Hlow & Heq & _).
  destruct (max_policy_row _ _ Hbl) as (_ & _ & Hs & Ha).
  unfold alternatives_reserved, assemble.
  cbn [final_limits base_limits risk_attitude_score cap_points
         alt_forced_zero_reasons].
  split; [| split; [| split]].
  - destruct (gating_reasons _ _ _ _) as [| reason reasons].
    + rewrite gate_limits_none. rewrite Halt. tauto.
    + rewrite gate_limits_some by lia. cbn [max_alternatives].
      split; [lia | intros (_ & _ & D); discriminate D].
  - intros P. destruct (Hmed P) as [Z0 E40].
    rewrite (gate_limits_no_alternatives _ _ Z0). auto.
  - exact Hlow.
  - destruct (gating_reasons _ _ _ _) as [| reason reasons].
    + rewrite gate_limits_none. exact Heq.
    + rewrite gate_limits_some by lia. exact Heq.
Qed.

Lemma alternatives_rule_witness :
  complete bold_input = true
  /\ exists r, compute_results bold_input = OK r /\ alternatives_reserved r.
Proof.
  split; [reflexivity |].
  apply (alternatives_rule bold_input). reflexivity.
Defined.

(** X7: the capacity override applies exactly when the capacity points are
    at most 10 and the score is above 44, or the points are 11..20 and the
    score is above 56; it then puts the final band at the capacity ceiling,
    and otherwise the final band is the risk-attitude band. *)
Theorem override_when (inputs : Inputs) :
  complete inputs = true ->
  exists r, compute_results inputs = OK r /\ override_rule r.
Proof.
  intros H.
  destruct (compute_results_complete _ H)
    as (p1 & p2 & p3 & p4 & p5 & mb & fb & bl
        & _ & _ & _ & _ & _ & Hmb & Hfb & Hbl & Hr).
  eexists. split; [exact Hr |].
  destruct (policy_cases _ _ _ _ _ Hmb Hfb Hbl)
    as (_ & _ & _ & _ & Hov & Hyes & Hno).
  unfold override_rule, assemble.
  cbn [override_applied cap_points risk_attitude_score final_band
         capacity_max_allowed_band risk_attitude_band].
  auto.
Qed.

Lemma override_when_witness :
  complete guarded_input = true
  /\ exists r, compute_results guarded_input = OK r /\ override_rule r.
Proof.
  split; [reflexivity |].
  apply (override_when guarded_input). reflexivity.
Defined.

(** ** Order along the bands *)

Lemma band_of_rank (band : string) (k : Z) :
  band_rank band k ->
  In (band, k)
     [ ("Very Cautious (0–25)", 0); ("Cautious (26–33)", 1);
       ("Moderately Cautious (34–44)", 2); ("Balanced (45–56)", 3);
       ("Moderately Adventurous (57–67)", 4); ("Adventurous (68–79)", 5);
       ("Very Adventurous (80–100)", 6) ].
Proof.
  intros H. apply list_index_nth in H. destruct H as [R N].
  change (Z.of_nat (List.length BAND_ORDER)) with 7 in R.
  assert (k = 0 \/ k = 1 \/ k = 2 \/ k = 3 \/ k = 4 \/ k = 5 \/ k = 6) as C by lia.
  destruct C as [-> | [-> | [-> | [-> | [-> | [-> | ->]]]]]];
    cbn in N; injection N as <-; cbn; auto 10.
Qed.

Lemma category_rank_monotone (s t : Z) :
  s <= t ->
  exists i j, band_rank (category_from_score s) i
              /\ band_rank (category_from_score t) j /\ i <= j.
Proof.
  intros L. unfold band_rank, category_from_score.
  repeat match goal with
         | |- context [?a <=? ?b] =>
             let C := fresh "C" in
             destruct (a <=? b) eqn:C;
             [apply Z.leb_le in C | apply Z.leb_gt in C]
         end;
    try (exfalso; lia);
    do 2 eexists;
    (split; [vm_compute; reflexivity | split; [vm_compute; reflexivity | lia]]).
Qed.

Lemma max_policy_monotone (fa fb : string) (i j : Z) (la lb : Limits) :
  band_rank fa i -> band_rank fb j -> i <= j ->
  dict_get MAX_POLICY fa = OK la -> dict_get MAX_POLICY fb = OK lb ->
  max_equity la <= max_equity lb
  /\ max_sukuk lb <= max_sukuk la
  /\ max_alternatives la <= max_alternatives lb.
Proof.
  intros Ri Rj L Ha Hb.
  apply band_of_rank in Ri. apply band_of_rank in Rj. cbn in Ri, Rj.
  repeat (destruct Ri as [Ri | Ri]; [injection Ri as <- <- |]); [.. | destruct Ri];
    repeat (destruct Rj as [Rj | Rj]; [injection Rj as <- <- |]);
    try destruct Rj; try (exfalso; lia);
    apply OK_inj in Ha; apply OK_inj in Hb; subst la lb; cbn; lia.
Qed.

Lemma score_monotone (t u : Z) :
  12 <= t <= 60 -> 12 <= u <= 60 -> t <= u ->
  round_half_even ((t - 12) * 100) 48 <= round_half_even ((u - 12) * 100) 48.
Proof.
  intros Ht Hu L.
  assert (score_pairs_ordered = true) as A by (vm_compute; reflexivity).
  unfold score_pairs_ordered in A. rewrite forallb_forall in A.
  assert (In t totals) as It by (apply totals_spec; lia).
  assert (In u totals) as Iu by (apply totals_spec; lia).
  specialize (A t It). rewrite forallb_forall in A. specialize (A u Iu).
  rewrite !orb_true_iff in A. destruct A as [[A | A] | A].
  - apply Z.ltb_lt in A. lia.
  - apply Z.ltb_lt in A. lia.
  - apply Z.leb_le in A. exact A.
Qed.

Ltac same_rank :=
  repeat match goal with
         | A : band_rank ?b ?u, B : band_rank ?b ?v |- _ =>
             unfold band_rank in A, B; rewrite A in B; apply OK_inj in B;
             subst v; fold (band_rank b u) in A
         end.

(** X8: of two complete inputs with the same capacity answers, the one
    with the higher (or equal) transformed total has the higher (or equal)
    score, risk-attitude band and final band, a base equity cap and a base
    alternatives cap at least as high and a base sukuk cap at most as
    high. *)
Theorem attitude_monotonicity (a b : Inputs) :
  complete a = true -> complete b = true ->
  same_capacity_answers a b ->
  raw_total_of (attitude_choices a) <= raw_total_of (attitude_choices b) ->
  exists ra rb,
    compute_results a = OK ra /\ compute_results b = OK rb
    /\ not_more_cautious ra rb.
Proof.
  intros Ha Hb (S1 & S2 & S3 & S4 & S5) L.
  destruct (compute_results_complete _ Ha)
    as (p1 & p2 & p3 & p4 & p5 & mb & fa & la
        & A1 & A2 & A3 & A4 & A5 & Amb & Afb & Abl & Hra).
  destruct (compute_results_complete _ Hb)
    as (q1 & q2 & q3 & q4 & q5 & mb' & fb & lb
        & B1 & B2 & B3 & B4 & B5 & Bmb & Bfb & Bbl & Hrb).
  rewrite <- S1, A1 in B1. apply OK_inj in B1. subst q1.
  rewrite <- S2, A2 in B2. apply OK_inj in B2. subst q2.
  rewrite <- S3, A3 in B3. apply OK_inj in B3. subst q3.
  rewrite <- S4, A4 in B4. apply OK_inj in B4. subst q4.
  rewrite <- S5, A5 in B5. apply OK_inj in B5. subst q5.
  rewrite Amb in Bmb. apply OK_inj in Bmb. subst mb'.
  do 2 eexists. split; [exact Hra |]. split; [exact Hrb |].
  pose proof (score_monotone _ _ (raw_total_range _ (complete_answers _ Ha))
                (raw_total_range _ (complete_answers _ Hb)) L) as Ls.
  destruct (category_rank_monotone _ _ Ls) as (i & j & Ri & Rj & Lij).
  destruct (band_at_or_below_inv _ _ _ Afb) as (i' & m & Ri' & Rm & _ & Rfa).
  destruct (band_at_or_below_inv _ _ _ Bfb) as (j' & m' & Rj' & Rm' & _ & Rfb).
  fold (band_rank (category_from_score
                     (round_half_even
                        ((raw_total_of (attitude_choices a) - 12) * 100) 48)) i')
    in Ri'.
  fold (band_rank (category_from_score
                     (round_half_even
                        ((raw_total_of (attitude_choices b) - 12) * 100) 48)) j')
    in Rj'.
  fold (band_rank mb m) in Rm. fold (band_rank mb m') in Rm'.
  same_rank.
  assert (Z.min i m <= Z.min j m) as Lf by lia.
  destruct (max_policy_monotone _ _ _ _ _ _ Rfa Rfb Lf Abl Bbl) as (Le & Lk & Lalt).
  unfold not_more_cautious, assemble.
  cbn [risk_attitude_score risk_attitude_band final_band base_limits].
  split; [exact Ls |].
  split; [exists i, j; auto |].
  split; [exists (Z.min i m), (Z.min j m); auto |].
  auto.
Qed.

Lemma attitude_monotonicity_witness :
  complete timid_input = true /\ complete guarded_input = true
  /\ same_capacity_answers timid_input guarded_input
  /\ raw_total_of (attitude_choices timid_input)
     <= raw_total_of (attitude_choices guarded_input)
  /\ exists ra rb,
      compute_results timid_input = OK ra /\ compute_results guarded_input = OK rb
      /\ not_more_cautious ra rb.
Proof.
  assert (same_capacity_answers timid_input guarded_input) as S
      by (repeat split).
  assert (raw_total_of (attitude_choices timid_input)
          <= raw_total_of (attitude_choices guarded_input)) as L
      by (vm_compute; discriminate).
  split; [reflexivity |]. split; [reflexivity |].
  split; [exact S |]. split; [exact L |].
  apply (attitude_monotonicity timid_input guarded_input);
    [reflexivity | reflexivity | exact S | exact L].
Defined.

Lemma list_index_missing (l : list string) (x : string) :
  list_mem x l = false -> list_index l x = Raise (ValueError x).
Proof.
  induction l as [| y l IH]; cbn; intros H; [reflexivity |].
  apply orb_false_iff in H. destruct H as [E H].
  rewrite String.eqb_sym, E, (IH H). reflexivity.
Qed.

Lemma list_index_found (l : list string) (x : string) :
  list_mem x l = true -> exists i, list_index l x = OK i.
Proof.
  induction l as [| y l IH]; cbn; intros H; [discriminate H |].
  destruct (String.eqb y x) eqn:E; [eauto |].
  rewrite String.eqb_sym, E in H. cbn in H.
  destruct (IH H) as (i & ->). cbn. eauto.
Qed.

(** X9: [band_at_or_below] raises [ValueError] for the first of its two
    arguments that is not a band of [BAND_ORDER]; on two bands it returns
    the one that stands earlier in [BAND_ORDER], whichever way round they
    are passed. *)
Theorem band_at_or_below_meet (current_band max_band : string) :
  band_meet current_band max_band.
Proof.
  unfold band_meet. split; [| split].
  - intros H. unfold band_at_or_below.
    rewrite (list_index_missing _ _ H). reflexivity.
  - intros Hc Hm. unfold band_at_or_below.
    destruct (list_index_found _ _ Hc) as (i & ->). cbn [bind OK].
    rewrite (list_index_missing _ _ Hm). reflexivity.
  - intros Hc Hm.
    destruct (list_index_found _ _ Hc) as (i & Hi).
    destruct (list_index_found _ _ Hm) as (j & Hj).
    exists i, j. split; [exact Hi |]. split; [exact Hj |].
    rewrite (band_at_or_below_spec _ _ _ _ Hi Hj),
      (band_at_or_below_spec _ _ _ _ Hj Hi).
    split; [reflexivity |].
    destruct (list_index_nth _ _ _ Hi) as [_ Ni].
    destruct (list_index_nth _ _ _ Hj) as [_ Nj].
    destruct (i <=? j) eqn:A; destruct (j <=? i) eqn:B; try reflexivity.
    + apply Z.leb_le in A. apply Z.leb_le in B.
      assert (i = j) by lia. subst j. rewrite Ni in Nj.
      injection Nj as ->. reflexivity.
    + apply Z.leb_gt in A. apply Z.leb_gt in B. lia.
Qed.

(** X10: [category_from_score] gives a band to every integer: a negative
    score falls in the lowest band, a score above 100 in the highest, and a
    higher score never falls in an earlier band of [BAND_ORDER]. *)
Theorem category_from_score_order (s t : Z) : category_total_order s t.
Proof.
  unfold category_total_order. split; [| split].
  - intros H. unfold category_from_score.
    destruct (s <=? 25) eqn:E; [reflexivity | apply Z.leb_gt in E; lia].
  - intros H. unfold category_from_score.
    repeat match goal with
           | |- context [?a <=? ?b] =>
               let C := fresh "C" in
               destruct (a <=? b) eqn:C;
               [apply Z.leb_le in C; lia | clear C]
           end.
    reflexivity.
  - apply category_rank_monotone.
Qed.

(** ** Mirrored answers *)

Lemma mirror_valid (choice : string) :
  list_mem choice LIKERT = true ->
  list_mem (mirror choice) LIKERT = true
  /\ likert_value (mirror choice) = 6 - likert_value choice
  /\ String.eqb (mirror choice) "No strong opinion"
     = String.eqb choice "No strong opinion".
Proof.
  intros H. apply list_mem_true_iff in H. cbn in H.
  destruct H as [<- | [<- | [<- | [<- | [<- | []]]]]];
    (split; [reflexivity | split; reflexivity]).
Qed.

Lemma mirror_answers (choices : list string) :
  likert_answers choices = true -> likert_answers (map mirror choices) = true.
Proof.
  intros H. destruct (likert_answers_inv _ H) as (L & F).
  unfold likert_answers. rewrite length_map, L. cbn [Nat.eqb andb].
  rewrite forallb_forall in *. intros c Hc.
  apply in_map_iff in Hc. destruct Hc as (c0 & <- & Hc0).
  now apply mirror_valid, F.
Qed.

Lemma mirror_totals (items : list (string * bool)) (choices : list string) :
  forallb (fun c => list_mem c LIKERT) choices = true ->
  list_sum (scored_values (combine items (map mirror choices)))
  = 6 * Z.of_nat (List.length (combine items choices))
    - list_sum (scored_values (combine items choices))
  /\ neutral_of (combine items (map mirror choices))
     = neutral_of (combine items choices).
Proof.
  revert choices. induction items as [| [stmt tag] items IH];
    intros [| c choices] F; try (split; reflexivity).
  cbn in F. apply andb_true_iff in F. destruct F as [Fc F].
  destruct (IH _ F) as [IHs IHn]. destruct (mirror_valid _ Fc) as (_ & V & N).
  split.
  - cbn [map combine scored_values List.length fst snd].
    change (list_sum (?x :: ?l)) with (x + list_sum l).
    fold (scored_values (combine items (map mirror choices))).
    fold (scored_values (combine items choices)).
    rewrite IHs. unfold scored_value. rewrite V.
    destruct tag; lia.
  - unfold neutral_of in *. cbn [map combine filter snd]. rewrite N.
    destruct (String.eqb c "No strong opinion"); cbn [List.length]; lia.
Qed.

(** X11: answering every statement with the opposite label (agreement and
    disagreement swapped, neutral kept) turns a score [s] into [100 - s]
    and keeps the neutral count. *)
Theorem mirrored_answers (inputs : Inputs) :
  complete inputs = true ->
  exists r r',
    compute_results inputs = OK r
    /\ compute_results
         (with_attitude_choices inputs (map mirror (attitude_choices inputs)))
       = OK r'
    /\ risk_attitude_score r' = 100 - risk_attitude_score r
    /\ neutral_count r' = neutral_count r.
Proof.
  intros H.
  pose proof (complete_answers _ H) as HA.
  assert (complete (with_attitude_choices inputs
                      (map mirror (attitude_choices inputs))) = true) as H'.
  { destruct (complete_inv _ H) as (_ & M1 & M2 & M3 & M4 & M5).
    unfold complete, with_attitude_choices.
    cbn [attitude_choices emergency_months income_stability withdrawal_need
           debt_burden portfolio_dependence].
    now rewrite (mirror_answers _ HA), M1, M2, M3, M4, M5. }
  destruct (compute_results_complete _ H)
    as (p1 & p2 & p3 & p4 & p5 & mb & fb & bl & _ & _ & _ & _ & _ & _ & _ & _ & Hr).
  destruct (compute_results_complete _ H')
    as (q1 & q2 & q3 & q4 & q5 & mb' & fb' & bl' & _ & _ & _ & _ & _ & _ & _ & _ & Hr').
  do 2 eexists. split; [exact Hr |]. split; [exact Hr' |].
  unfold assemble, with_attitude_choices.
  cbn [risk_attitude_score neutral_count attitude_choices].
  destruct (likert_answers_inv _ HA) as (L & F).
  destruct (mirror_totals ITEMS _ F) as [Es En].
  rewrite (combine_items_length _ L) in Es.
  split; [| exact En].
  unfold raw_total_of. rewrite Es.
  pose proof (raw_total_range _ HA) as R. unfold raw_total_of in R.
  assert (mirror_scores = true) as A by (vm_compute; reflexivity).
  unfold mirror_scores in A. rewrite forallb_forall in A.
  assert (In (list_sum (scored_values (combine ITEMS (attitude_choices inputs))))
             totals) as It by (apply totals_spec; lia).
  specialize (A _ It). cbv beta in A.
  apply orb_true_iff in A. destruct A as [A | A].
  - apply Z.ltb_lt in A. lia.
  - apply Z.eqb_eq in A. exact A.
Qed.

Lemma mirrored_answers_witness :
  complete guarded_input = true
  /\ exists r r',
      compute_results guarded_input = OK r
      /\ compute_results
           (with_attitude_choices guarded_input
              (map mirror (attitude_choices guarded_input)))
         = OK r'
      /\ risk_attitude_score r' = 100 - risk_attitude_score r
      /\ neutral_count r' = neutral_count r.
Proof.
  split; [reflexivity |].
  apply (mirrored_answers guarded_input). reflexivity.
Defined.

(** ** Splitting and joining words *)

Lemma space_is_space : is_space 32 = true.
Proof. reflexivity. Qed.

Lemma forallb_rev {A} (p : A -> bool) (l : list A) :
  forallb p (rev l) = forallb p l.
Proof.
  induction l as [| a l IH]; cbn; [reflexivity |].
  rewrite forallb_app, IH. cbn. rewrite andb_true_r. apply andb_comm.
Qed.

Lemma rev_not_nil {A} (l : list A) : l <> [] -> rev l <> [].
Proof.
  intros H E. apply H. rewrite <- (rev_involutive l), E. reflexivity.
Qed.

Lemma split_from_words (s word : text) :
  forallb (fun c => negb (is_space c)) word = true ->
  Forall is_word (py_split_from word s).
Proof.
  revert word. induction s as [| c s IH]; intros word Hw; cbn.
  - destruct word as [| d word]; constructor; [| constructor].
    split; [apply rev_not_nil; discriminate | now rewrite forallb_rev].
  - destruct (is_space c) eqn:E.
    + destruct word as [| d word]; [apply IH; reflexivity |].
      constructor; [| apply IH; reflexivity].
      split; [apply rev_not_nil; discriminate | now rewrite forallb_rev].
    + apply IH. cbn. now rewrite E.
Qed.

Lemma py_split_words (s : text) : Forall is_word (py_split s).
Proof. apply split_from_words. reflexivity. Qed.

Lemma split_from_run (w s acc : text) :
  forallb (fun c => negb (is_space c)) w = true ->
  py_split_from acc (w ++ s) = py_split_from (rev w ++ acc) s.
Proof.
  revert acc. induction w as [| c w IH]; intros acc H; cbn; [reflexivity |].
  cbn in H. apply andb_true_iff in H. destruct H as [Hc H].
  apply negb_true_iff in Hc. rewrite Hc, IH by exact H.
  now rewrite <- app_assoc.
Qed.

Lemma py_split_word (w : text) : is_word w -> py_split w = [w].
Proof.
  intros [Hn Hw]. unfold py_split.
  rewrite <- (app_nil_r w) at 1. rewrite split_from_run by exact Hw.
  rewrite app_nil_r. cbn.
  destruct (rev w) eqn:E; [destruct (rev_not_nil _ Hn E) |].
  now rewrite <- E, rev_involutive.
Qed.

Lemma py_split_word_space (w s : text) :
  is_word w -> py_split (w ++ [32%N] ++ s) = w :: py_split s.
Proof.
  intros [Hn Hw]. unfold py_split.
  rewrite split_from_run by exact Hw. rewrite app_nil_r.
  cbn [app py_split_from]. rewrite space_is_space.
  destruct (rev w) eqn:E; [destruct (rev_not_nil _ Hn E) |].
  now rewrite <- E, rev_involutive.
Qed.

(** Splitting a joined line gives its words back. *)
Lemma py_split_join (g : list text) :
  Forall is_word g -> py_split (join_words g) = g.
Proof.
  induction 1 as [| w g Hw Hg IH]; [reflexivity |].
  cbn [join_words]. destruct g as [| w' g].
  - now apply py_split_word.
  - rewrite py_split_word_space by exact Hw. now rewrite IH.
Qed.

Lemma join_words_snoc (g : list text) (w : text) :
  join_words (g ++ [w]) =
  match g with
  | [] => w
  | _ :: _ => join_words g ++ [32%N] ++ w
  end.
Proof.
  induction g as [| v g IH]; [reflexivity |].
  cbn [app join_words]. destruct g as [| v' g]; [reflexivity |].
  cbn [app] in *. rewrite IH. now rewrite <- !app_assoc.
Qed.

Lemma join_words_truthy (g : list text) :
  Forall is_word g ->
  truthy (join_words g) = match g with [] => false | _ :: _ => true end.
Proof.
  intros H. destruct H as [| w g [Hn _] _]; [reflexivity |].
  cbn [join_words]. destruct g; destruct w; try reflexivity; now destruct Hn.
Qed.

(** *** Stripping *)

Lemma lstrip_clean (s : text) : starts_clean s -> lstrip s = s.
Proof.
  destruct s as [| c s]; cbn; [intros [] | intros ->; reflexivity].
Qed.

Lemma py_strip_clean (s : text) : edge_clean s -> py_strip s = s.
Proof.
  intros [H1 H2]. unfold py_strip.
  rewrite (lstrip_clean _ H1), (lstrip_clean _ H2). apply rev_involutive.
Qed.

Lemma starts_clean_app (s t : text) : starts_clean s -> starts_clean (s ++ t).
Proof. destruct s; cbn; [intros [] | auto]. Qed.

Lemma word_starts_clean (w : text) : is_word w -> starts_clean w.
Proof.
  intros [Hn Hw]. destruct w as [| c w]; [now destruct Hn |].
  cbn in *. apply andb_true_iff in Hw. destruct Hw as [Hc _].
  now apply negb_true_iff in Hc.
Qed.

Lemma word_rev (w : text) : is_word w -> is_word (rev w).
Proof.
  intros [Hn Hw]. split; [now apply rev_not_nil | now rewrite forallb_rev].
Qed.

Lemma join_edge_clean (g : list text) :
  Forall is_word g -> g <> [] -> edge_clean (join_words g).
Proof.
  induction 1 as [| w g Hw Hg IH]; intros Hn; [now destruct Hn |].
  cbn [join_words]. destruct g as [| w' g].
  - split; [now apply word_starts_clean | now apply word_starts_clean, word_rev].
  - destruct IH as [_ IH2]; [discriminate |]. split.
    + now apply starts_clean_app, word_starts_clean.
    + rewrite !rev_app_distr, <- app_assoc. now apply starts_clean_app.
Qed.

(** [f"{cur} {w}".strip()] is the line with one more word. *)
Lemma strip_joined (g : list text) (w : text) :
  Forall is_word g -> is_word w ->
  py_strip (join_words g ++ [32%N] ++ w) = join_words (g ++ [w]).
Proof.
  intros Hg Hw. rewrite join_words_snoc. destruct g as [| v g].
  - cbn [join_words app]. unfold py_strip. cbn [lstrip].
    rewrite space_is_space.
    rewrite (lstrip_clean _ (word_starts_clean _ Hw)).
    rewrite (lstrip_clean _ (word_starts_clean _ (word_rev _ Hw))).
    apply rev_involutive.
  - apply py_strip_clean.
    destruct (join_edge_clean (v :: g) Hg) as [C1 _]; [discriminate |].
    split; [now apply starts_clean_app |].
    rewrite !rev_app_distr, <- app_assoc.
    now apply starts_clean_app, word_starts_clean, word_rev.
Qed.

(** ** The wrapping loop *)


Lemma wrap_loop (max_chars : Z) (words : list text) :
  Forall is_word words ->
  forall (lines : list text) (g : list text),
    Forall is_word g ->
    finish (fold_left (wrap_step max_chars) words (lines, join_words g))
    = lines ++ map join_words (group_words max_chars g words).
Proof.
  induction 1 as [| w words Hw Hws IH]; intros lines g Hg.
  - cbn [fold_left finish group_words].
    rewrite (join_words_truthy _ Hg).
    destruct g; cbn [map]; [now rewrite app_nil_r | reflexivity].
  - cbn [fold_left group_words]. unfold wrap_step at 2.
    destruct (py_len (join_words g) + py_len w
              + (if truthy (join_words g) then 1 else 0) <=? max_chars).
    + rewrite (strip_joined _ _ Hg Hw). apply IH.
      apply Forall_app. split; [exact Hg | now constructor].
    + rewrite (join_words_truthy _ Hg). destruct g as [| v g].
      * exact (IH lines [w] (Forall_cons _ Hw (Forall_nil _))).
      * etransitivity;
          [exact (IH (lines ++ [join_words (v :: g)]) [w]
                     (Forall_cons _ Hw (Forall_nil _))) |].
        cbn [map]. now rewrite <- app_assoc.
Qed.

(** The lines are the joined groups of the words of the text. *)
Lemma wrap_as_groups (txt : option text) (max_chars : Z) :
  wrap_text_to_lines txt max_chars
  = map join_words (group_words max_chars [] (py_split (text_or_empty txt))).
Proof.
  unfold wrap_text_to_lines. cbv zeta.
  exact (wrap_loop max_chars _ (py_split_words _) [] [] (Forall_nil _)).
Qed.

Lemma group_words_concat (max_chars : Z) (words g : list text) :
  List.concat (group_words max_chars g words) = g ++ words.
Proof.
  revert g. induction words as [| w words IH]; intros g; cbn [group_words].
  - destruct g; cbn; now rewrite ?app_nil_r.
  - destruct (_ <=? max_chars).
    + rewrite IH. now rewrite <- app_assoc.
    + destruct g as [| v g]; [exact (IH [w]) |].
      cbn [List.concat]. rewrite (IH [w]). reflexivity.
Qed.

Lemma group_words_are_words (max_chars : Z) (words g : list text) :
  Forall is_word words -> Forall is_word g ->
  Forall (fun grp => grp <> [] /\ Forall is_word grp)
         (group_words max_chars g words).
Proof.
  intros Hws. revert g. induction Hws as [| w words Hw Hws IH]; intros g Hg;
    cbn [group_words].
  - destruct g; constructor; [split; [discriminate | exact Hg] | constructor].
  - assert (Forall is_word [w]) as H1 by now constructor.
    destruct (_ <=? max_chars).
    + apply IH. apply Forall_app. now split.
    + destruct g as [| v g]; [now apply IH |].
      constructor; [split; [discriminate | exact Hg] | now apply IH].
Qed.

Lemma join_words_len_snoc (g : list text) (w : text) :
  Forall is_word g ->
  py_len (join_words (g ++ [w]))
  = py_len (join_words g) + py_len w + (if truthy (join_words g) then 1 else 0).
Proof.
  intros Hg. rewrite join_words_snoc, (join_words_truthy _ Hg).
  destruct g as [| v g]; [cbn [join_words]; unfold py_len; cbn; lia |].
  unfold py_len. rewrite !length_app. cbn [List.length]. lia.
Qed.

Lemma group_words_fit (max_chars : Z) (words g : list text) :
  Forall is_word words -> Forall is_word g ->
  g = [] \/ group_fits max_chars g ->
  Forall (group_fits max_chars) (group_words max_chars g words).
Proof.
  intros Hws. revert g.
  induction Hws as [| w words Hw Hws IH]; intros g Hg Hfit; cbn [group_words].
  - destruct g; constructor; [| constructor].
    destruct Hfit as [E | F]; [discriminate E | exact F].
  - assert (Forall is_word [w]) as H1 by now constructor.
    destruct (_ <=? max_chars) eqn:E.
    + apply Z.leb_le in E. apply IH.
      * apply Forall_app. now split.
      * right. left. rewrite (join_words_len_snoc _ _ Hg). exact E.
    + assert (Forall (group_fits max_chars) (group_words max_chars [w] words))
        as Hrest.
      { apply IH; [exact H1 | right; right; eauto]. }
      destruct g as [| v g]; [exact Hrest |].
      constructor; [| exact Hrest].
      destruct Hfit as [D | F]; [discriminate D | exact F].
Qed.

Lemma group_words_head (max_chars : Z) (words g : list text) :
  g <> [] ->
  exists more rest, group_words max_chars g words = (g ++ more) :: rest.
Proof.
  revert g. induction words as [| w words IH]; intros g Hg; cbn [group_words].
  - destruct g as [| v g]; [now destruct Hg |].
    exists [], []. now rewrite app_nil_r.
  - destruct (_ <=? max_chars).
    + destruct (IH (g ++ [w])) as (more & rest & E);
        [now destruct g; discriminate |].
      exists (w :: more), rest. rewrite E. now rewrite <- app_assoc.
    + destruct g as [| v g]; [now destruct Hg |].
      eexists [], _. now rewrite app_nil_r.
Qed.

Lemma group_words_forced (max_chars : Z) (words g : list text) :
  Forall is_word words -> Forall is_word g ->
  breaks_forced max_chars (group_words max_chars g words).
Proof.
  intros Hws. revert g.
  induction Hws as [| w words Hw Hws IH]; intros g Hg; cbn [group_words].
  - destruct g; cbn; auto.
  - assert (Forall is_word [w]) as H1 by now constructor.
    destruct (_ <=? max_chars) eqn:E.
    + apply IH. apply Forall_app. now split.
    + destruct g as [| v g]; [now apply IH |].
      pose proof (IH [w] H1) as F.
      destruct (group_words_head max_chars words [w]) as (more & rest & G);
        [discriminate |].
      rewrite G in *. cbn [breaks_forced app]. split; [| exact F].
      apply Z.leb_gt in E. rewrite (join_words_truthy _ Hg) in E. lia.
Qed.

Lemma breaks_forced_tail (max_chars : Z) (a b : list (list text)) :
  breaks_forced max_chars (a ++ b) -> breaks_forced max_chars b.
Proof.
  induction a as [| g a IH]; [auto |].
  cbn [app breaks_forced]. destruct (a ++ b) eqn:E.
  - destruct a; [cbn in E; subst b; cbn; auto | discriminate E].
  - intros [_ H]. auto.
Qed.

Lemma join_words_cons (w v : text) (l : list text) :
  join_words (w :: v :: l) = w ++ [32%N] ++ join_words (v :: l).
Proof. reflexivity. Qed.

Lemma join_words_len_prefix (a b : list text) :
  py_len (join_words a) <= py_len (join_words (a ++ b)).
Proof.
  induction a as [| w a IH]; [unfold py_len; cbn; lia |].
  destruct a as [| v a].
  - destruct b as [| u b]; [cbn; lia |].
    change (([w] ++ u :: b)) with (w :: u :: b).
    rewrite join_words_cons. unfold py_len. cbn [join_words].
    rewrite length_app. lia.
  - change ((w :: v :: a) ++ b) with (w :: v :: (a ++ b)).
    change ((v :: a) ++ b) with (v :: (a ++ b)) in IH.
    rewrite !join_words_cons. unfold py_len in *. rewrite !length_app. lia.
Qed.

Lemma group_words_single (max_chars : Z) (rest pre : list text) :
  Forall is_word rest -> Forall is_word pre ->
  py_len (join_words (pre ++ rest)) <= max_chars ->
  pre ++ rest <> [] ->
  group_words max_chars pre rest = [pre ++ rest].
Proof.
  intros Hr. revert pre.
  induction Hr as [| w rest Hw Hr IH]; intros pre Hp L Hn; cbn [group_words].
  - rewrite app_nil_r in *. destruct pre; [now destruct Hn | reflexivity].
  - replace (pre ++ w :: rest) with ((pre ++ [w]) ++ rest) in *
      by now rewrite <- app_assoc.
    pose proof (join_words_len_prefix (pre ++ [w]) rest) as P.
    rewrite (join_words_len_snoc _ _ Hp) in P.
    destruct (_ <=? max_chars) eqn:E; [| apply Z.leb_gt in E; lia].
    apply IH; [| exact L | exact Hn].
    apply Forall_app. split; [exact Hp | now constructor].
Qed.

Lemma group_words_again (max_chars : Z) (g : list text) :
  Forall is_word g -> g <> [] -> group_fits max_chars g ->
  group_words max_chars [] g = [g].
Proof.
  intros Hg Hn [L | (w & ->)].
  - exact (group_words_single max_chars g [] Hg (Forall_nil _) L Hn).
  - cbn [group_words]. destruct (_ <=? max_chars); reflexivity.
Qed.

Lemma split_joined_groups (groups : list (list text)) :
  Forall (fun g => g <> [] /\ Forall is_word g) groups ->
  flat_map py_split (map join_words groups) = List.concat groups.
Proof.
  induction 1 as [| g groups [_ Hg] _ IH]; [reflexivity |].
  cbn [map flat_map List.concat]. now rewrite py_split_join, IH.
Qed.

Lemma split_from_nonempty (s word : text) :
  word <> [] -> py_split_from word s <> [].
Proof.
  revert word. induction s as [| c s IH]; intros word H; cbn.
  - destruct word; [now destruct H | discriminate].
  - destruct (is_space c).
    + destruct word; [now destruct H | discriminate].
    + apply IH. discriminate.
Qed.

Lemma py_split_none (s : text) :
  py_split s = [] <-> forallb is_space s = true.
Proof.
  unfold py_split. induction s as [| c s IH]; cbn; [tauto |].
  destruct (is_space c); cbn; [exact IH |].
  split; [| discriminate]. intros H.
  now destruct (split_from_nonempty s [c]).
Qed.

Lemma wrap_groups_words (txt : option text) (max_chars : Z) :
  Forall (fun g => g <> [] /\ Forall is_word g)
         (group_words max_chars [] (py_split (text_or_empty txt))).
Proof.
  apply group_words_are_words; [apply py_split_words | constructor].
Qed.

Lemma wrap_words (txt : option text) (max_chars : Z) :
  flat_map py_split (wrap_text_to_lines txt max_chars)
  = py_split (text_or_empty txt).
Proof.
  rewrite wrap_as_groups, split_joined_groups by apply wrap_groups_words.
  apply group_words_concat.
Qed.

(** ** Properties of [wrap_text_to_lines] *)

(** X12: wrapping loses no word, reorders none and cuts none in two: the
    words of the lines, read line after line, are the words of the text. *)
Theorem wrap_keeps_words (txt : option text) (max_chars : Z) :
  flat_map py_split (wrap_text_to_lines txt max_chars)
  = py_split (text_or_empty txt).
Proof. apply wrap_words. Qed.

Lemma group_line_shape (max_chars : Z) (g : list text) :
  g <> [] -> Forall is_word g -> group_fits max_chars g ->
  line_shape max_chars (join_words g).
Proof.
  intros Hn Hg Hf. unfold line_shape.
  rewrite (py_split_join _ Hg).
  split.
  { intros E. pose proof (join_words_truthy _ Hg) as T. rewrite E in T.
    destruct g; [now destruct Hn | discriminate T]. }
  split; [apply py_strip_clean, join_edge_clean; assumption |].
  split; [reflexivity |].
  destruct Hf as [L | (w & ->)]; [left; exact L | right; reflexivity].
Qed.

(** X13: every line returned is non-empty, has no whitespace at either end
    and one space between its words; it is at most [max_chars] long unless
    it consists of a single word. *)
Theorem wrap_line_shape (txt : option text) (max_chars : Z) :
  Forall (line_shape max_chars) (wrap_text_to_lines txt max_chars).
Proof.
  rewrite wrap_as_groups. apply Forall_map.
  pose proof (wrap_groups_words txt max_chars) as W.
  pose proof (group_words_fit max_chars _ [] (py_split_words (text_or_empty txt))
                              (Forall_nil _) (or_introl eq_refl)) as F.
  pose proof (Forall_and W F) as A. clear W F.
  eapply Forall_impl; [| exact A]. cbv beta.
  intros g [[Hn Hg] Hf]. now apply group_line_shape.
Qed.

Lemma map_join_split (groups : list (list text)) (pre post : list text)
      (l1 l2 : text) :
  map join_words groups = pre ++ l1 :: l2 :: post ->
  exists gpre g1 g2 gpost,
    groups = gpre ++ g1 :: g2 :: gpost
    /\ l1 = join_words g1 /\ l2 = join_words g2.
Proof.
  intros H. apply map_eq_app in H. destruct H as (gpre & gtl & -> & _ & H).
  destruct gtl as [| g1 [| g2 gpost]]; try discriminate H.
  cbn [map] in H. injection H as E1 E2 _.
  exists gpre, g1, g2, gpost. auto.
Qed.

(** X14: a line break is never taken early: where one line follows
    another, the first word of the second, put behind the first line with a
    space, would have passed [max_chars]. *)
Theorem wrap_breaks_forced (txt : option text) (max_chars : Z)
        (pre post : list text) (l1 l2 : text) :
  wrap_text_to_lines txt max_chars = pre ++ l1 :: l2 :: post ->
  exists w rest,
    py_split l2 = w :: rest /\ max_chars < py_len l1 + 1 + py_len w.
Proof.
  rewrite wrap_as_groups. intros H.
  apply map_join_split in H.
  destruct H as (gpre & g1 & g2 & gpost & E & -> & ->).
  pose proof (wrap_groups_words txt max_chars) as W.
  pose proof (group_words_forced max_chars _ [] (py_split_words (text_or_empty txt))
                                 (Forall_nil _)) as F.
  rewrite E in W, F. apply breaks_forced_tail in F.
  apply Forall_app in W. destruct W as [_ W].
  apply Forall_inv_tail in W. apply Forall_inv in W. destruct W as [_ Hg2].
  rewrite (py_split_join _ Hg2).
  cbn [breaks_forced] in F. destruct g2 as [| w rest]; [now destruct F |].
  exists w, rest. split; [reflexivity | exact (proj1 F)].
Qed.

Lemma wrap_breaks_forced_witness :
  wrap_text_to_lines (Some sample_text) 5
  = [] ++ [97; 98; 32; 99; 100]%N :: [101%N] :: []
  /\ exists w rest,
      py_split [101%N] = w :: rest
      /\ 5 < py_len [97; 98; 32; 99; 100]%N + 1 + py_len w.
Proof.
  split; [reflexivity |].
  apply (wrap_breaks_forced (Some sample_text) 5 [] []). reflexivity.
Defined.

(** X15: no line is returned exactly when the text is [None], empty or
    made of whitespace only. *)
Theorem wrap_nothing (txt : option text) (max_chars : Z) :
  wrap_text_to_lines txt max_chars = []
  <-> forallb is_space (text_or_empty txt) = true.
Proof.
  rewrite <- py_split_none. split; intros H.
  - rewrite <- (wrap_words txt max_chars), H. reflexivity.
  - rewrite wrap_as_groups, H. reflexivity.
Qed.

(** X16: wrapping a returned line again, at the same width, gives that
    line back alone. *)
Theorem wrap_again (txt : option text) (max_chars : Z) (line : text) :
  In line (wrap_text_to_lines txt max_chars) ->
  wrap_text_to_lines (Some line) max_chars = [line].
Proof.
  rewrite wrap_as_groups. intros H. apply in_map_iff in H.
  destruct H as (g & <- & Hin).
  pose proof (wrap_groups_words txt max_chars) as W.
  pose proof (group_words_fit max_chars _ [] (py_split_words (text_or_empty txt))
                              (Forall_nil _) (or_introl eq_refl)) as F.
  rewrite Forall_forall in W, F.
  destruct (W _ Hin) as [Hn Hg]. specialize (F _ Hin).
  rewrite wrap_as_groups. cbn [text_or_empty].
  rewrite (py_split_join _ Hg), (group_words_again _ _ Hg Hn F). reflexivity.
Qed.

Lemma wrap_again_witness :
  In [97; 98; 32; 99; 100]%N (wrap_text_to_lines (Some sample_text) 5)
  /\ wrap_text_to_lines (Some [97; 98; 32; 99; 100]%N) 5
     = [[97; 98; 32; 99; 100]%N].
Proof.
  assert (In [97; 98; 32; 99; 100]%N (wrap_text_to_lines (Some sample_text) 5))
    as H by (left; reflexivity).
  split; [exact H |].
  apply (wrap_again (Some sample_text) 5). exact H.
Defined.

(** ** The questionnaire page *)

Lemma form_choices_by_number (f : Form) :
  form_attitude_choices f = map (att f) (seq 1 12).
Proof. reflexivity. Qed.

Lemma enumerate_cons {A} (start : nat) (a : A) (l : list A) :
  enumerate start (a :: l) = (start, a) :: enumerate (S start) l.
Proof. reflexivity. Qed.

Lemma missing_none_iff (label : nat -> string) (l : list (option string))
      (start : nat) :
  flat_map (fun item : nat * option string =>
              missing_if_none (snd item) (label (fst item)))
           (enumerate start l) = []
  <-> Forall (fun v => v <> None) l.
Proof.
  revert start. induction l as [| v l IH]; intros start.
  - split; [constructor | reflexivity].
  - rewrite enumerate_cons. cbn [flat_map fst snd].
    destruct v as [c |]; cbn [missing_if_none app].
    + rewrite IH. split; intros H.
      * constructor; [discriminate | exact H].
      * now apply Forall_inv_tail in H.
    + split; [discriminate |]. intros H. apply Forall_inv in H. now destruct H.
Qed.

Lemma all_answered_or_not (l : list (option string)) :
  Forall (fun v => v <> None) l \/ In None l.
Proof.
  induction l as [| [c |] l [IH | IH]]; auto.
  - left. constructor; [discriminate | exact IH].
  - right. now right.
  - right. now left.
  - right. now left.
Qed.

Lemma missing_if_none_nil (v : option string) (label : string) :
  missing_if_none v label = [] <-> v <> None.
Proof.
  destruct v; cbn; split; try discriminate; auto. intros H. now destruct H.
Qed.

Lemma missing_nil_iff (f : Form) :
  missing_of f = []
  <-> Forall (fun v => v <> None) (form_attitude_choices f)
      /\ cap_emergency f <> None /\ cap_income f <> None
      /\ cap_withdrawal f <> None /\ cap_debt f <> None
      /\ cap_dependence f <> None.
Proof.
  unfold missing_of.
  rewrite <- (missing_none_iff
                (fun i => ("Risk attitude question " ++ decimal i)%string)
                               (form_attitude_choices f) 1).
  rewrite <- !missing_if_none_nil.
  split.
  - intros H.
    repeat (apply app_eq_nil in H; destruct H as [? H]).
    repeat split; eassumption.
  - intros (H0 & H1 & H2 & H3 & H4 & H5).
    rewrite H0. cbn [app]. rewrite H1, H2, H3, H4, H5. reflexivity.
Qed.

Lemma unanswered_iff (f : Form) :
  unanswered f
  <-> ~ (Forall (fun v => v <> None) (form_attitude_choices f)
         /\ cap_emergency f <> None /\ cap_income f <> None
         /\ cap_withdrawal f <> None /\ cap_debt f <> None
         /\ cap_dependence f <> None).
Proof.
  unfold unanswered. rewrite form_choices_by_number. split.
  - intros [(i & Hi & E) | H] (F & N1 & N2 & N3 & N4 & N5);
      [| tauto].
    rewrite Forall_forall in F. apply (F None); [| reflexivity].
    apply in_map_iff. exists i. split; [exact E | apply in_seq; lia].
  - intros H.
    destruct (all_answered_or_not (map (att f) (seq 1 12))) as [F | I].
    + right.
      destruct (cap_emergency f); [| auto].
      destruct (cap_income f); [| auto].
      destruct (cap_withdrawal f); [| auto].
      destruct (cap_debt f); [| auto 6].
      destruct (cap_dependence f); [| auto 6].
      exfalso. apply H. repeat split; try discriminate. exact F.
    + left. apply in_map_iff in I. destruct I as (i & E & Hi).
      apply in_seq in Hi. exists i. split; [lia | exact E].
Qed.

(** X17: the submit handler shows the missing-answers message exactly when
    one of the twelve statements or one of the five capacity questions is
    unanswered. *)
Theorem submit_error_when (f : Form) :
  (exists message, on_submit f = ShowError message) <-> unanswered f.
Proof.
  rewrite unanswered_iff, <- missing_nil_iff. unfold on_submit.
  destruct (missing_of f) as [| m ms].
  - split; [| intros H; now destruct H].
    intros (message & H).
    destruct (collect_inputs f) as [inputs |]; [| discriminate H].
    destruct (compute_results inputs); discriminate H.
  - split; [discriminate | eauto].
Qed.

Lemma all_some_total {A} (l : list (option A)) :
  Forall (fun v => v <> None) l ->
  exists r, all_some l = Some r /\ map Some r = l.
Proof.
  induction 1 as [| [a |] l Hv _ IH]; [exists []; auto | | now destruct Hv].
  destruct IH as (r & E & M). exists (a :: r). cbn. rewrite E, M. auto.
Qed.

(** X18: as long as every radio and select box hands back one of its own
    options, a submit never ends in an exception: either the message is
    shown, or the input collected is complete, the engine returns a result
    and the handler stores it and turns to the results page. *)
Theorem submit_never_crashes (f : Form) :
  widgets_in_range f -> submit_handled f.
Proof.
  intros (Ra & R1 & R2 & R3 & R4 & R5). unfold submit_handled, on_submit.
  destruct (missing_of f) as [| m ms] eqn:M; [right | left; eauto].
  apply missing_nil_iff in M. destruct M as (F & N1 & N2 & N3 & N4 & N5).
  destruct (all_some_total _ F) as (choices & Ec & Mc).
  unfold collect_inputs. rewrite Ec.
  destruct (cap_emergency f) as [e |]; [| now destruct N1].
  destruct (cap_income f) as [i |]; [| now destruct N2].
  destruct (cap_withdrawal f) as [w |]; [| now destruct N3].
  destruct (cap_debt f) as [d |]; [| now destruct N4].
  destruct (cap_dependence f) as [p |]; [| now destruct N5].
  assert (complete (mkInputs choices e i w d p (alt_reits f) (alt_cmdty f)
                             (alt_eq f) (alt_gate_exp f)) = true) as C.
  { unfold complete, likert_answers.
    cbn [attitude_choices emergency_months income_stability withdrawal_need
           debt_burden portfolio_dependence].
    rewrite (R1 e), (R2 i), (R3 w), (R4 d), (R5 p) by reflexivity.
    rewrite !andb_true_r. apply andb_true_iff. split.
    - apply Nat.eqb_eq. rewrite <- (length_map Some), Mc.
      rewrite form_choices_by_number, length_map, length_seq. reflexivity.
    - apply forallb_forall. intros c Hc.
      assert (In (Some c) (form_attitude_choices f)) as Hin
          by (rewrite <- Mc; now apply in_map).
      rewrite form_choices_by_number in Hin. apply in_map_iff in Hin.
      destruct Hin as (n & E & _). exact (Ra _ _ E). }
  destruct (compute_results_total _ C) as (r & Hr).
  do 2 eexists. split; [reflexivity |]. split; [exact C |].
  split; [exact Hr |]. rewrite Hr. reflexivity.
Qed.

Lemma submit_never_crashes_witness :
  widgets_in_range filled_form /\ submit_handled filled_form.
Proof.
  assert (widgets_in_range filled_form) as W.
  { unfold widgets_in_range, filled_form.
    cbn [att cap_emergency cap_income cap_withdrawal cap_debt cap_dependence].
    split.
    - intros i c H. apply nth_error_In in H.
      cbn in H. repeat (destruct H as [<- | H]; [reflexivity |]). destruct H.
    - repeat split; intros c H; injection H as <-; reflexivity. }
  split; [exact W |].
  apply (submit_never_crashes filled_form). exact W.
Defined.

(** ** Narrow widths and report bullets *)

Lemma group_words_narrow (max_chars : Z) (words : list text) :
  max_chars <= 0 -> Forall is_word words ->
  forall g,
    g = [] \/ (exists w, g = [w] /\ is_word w) ->
    map join_words (group_words max_chars g words) = g ++ words.
Proof.
  intros Hm Hws. induction Hws as [| w words Hw Hws IH]; intros g Hg;
    cbn [group_words].
  - destruct Hg as [-> | (v & -> & _)]; reflexivity.
  - assert (0 < py_len w) as Lw.
    { destruct Hw as [Hn _]. destruct w; [now destruct Hn |].
      unfold py_len. cbn [List.length]. lia. }
    assert (0 <= py_len (join_words g)) as Lg by (unfold py_len; lia).
    destruct (_ <=? max_chars) eqn:E.
    { apply Z.leb_le in E. destruct (truthy (join_words g)); lia. }
    destruct Hg as [-> | (v & -> & Hv)].
    + apply IH. right. eauto.
    + cbn [map app join_words]. f_equal. apply (IH [w]). right. eauto.
Qed.

(** X19: with a width of 0 or less nothing fits behind anything: every
    word of the text is returned as a line of its own. *)
Theorem wrap_narrow (txt : option text) (max_chars : Z) :
  max_chars <= 0 ->
  wrap_text_to_lines txt max_chars = py_split (text_or_empty txt).
Proof.
  intros Hm. rewrite wrap_as_groups.
  exact (group_words_narrow max_chars _ Hm (py_split_words _) [] (or_introl eq_refl)).
Qed.

Lemma wrap_narrow_witness :
  0 <= 0
  /\ wrap_text_to_lines (Some sample_text) 0 = py_split (text_or_empty (Some sample_text)).
Proof.
  split; [lia |].
  apply (wrap_narrow (Some sample_text) 0). lia.
Defined.

Lemma selected_reasons_among (liquidity capacity experience : bool) (x : string) :
  In x (selected_reasons liquidity capacity experience) ->
  x = liquidity_reason \/ x = capacity_reason \/ x = experience_reason.
Proof.
  destruct liquidity, capacity, experience; cbn; intuition.
Qed.

Lemma selected_flags_among (neutral discomfort experience : bool) (x : string) :
  In x (selected_flags neutral discomfort experience) ->
  x = neutral_flag \/ x = discomfort_flag \/ x = experience_flag.
Proof.
  destruct neutral, discomfort, experience; cbn; intuition.
Qed.

Lemma bullets_whole :
  drawn_whole liquidity_reason /\ drawn_whole capacity_reason
  /\ drawn_whole experience_reason /\ drawn_whole neutral_flag
  /\ drawn_whole discomfort_flag /\ drawn_whole experience_flag.
Proof. repeat split; vm_compute; reflexivity. Qed.

(** X20: in the PDF report every gating reason and every flag of a result
    is drawn, behind its bullet, as one line with its text unchanged: none
    of them is wrapped at the width of 110. *)
Theorem report_bullets_whole (inputs : Inputs) :
  complete inputs = true ->
  exists r,
    compute_results inputs = OK r
    /\ Forall drawn_whole (alt_forced_zero_reasons r ++ flags r).
Proof.
  intros H.
  destruct (compute_results_complete _ H)
    as (p1 & p2 & p3 & p4 & p5 & mb & fb & bl & _ & _ & _ & _ & _ & _ & _ & _ & Hr).
  eexists. split; [exact Hr |].
  unfold assemble. cbn [alt_forced_zero_reasons flags].
  rewrite gating_reasons_selected, robustness_flags_selected.
  destruct bullets_whole as (B1 & B2 & B3 & B4 & B5 & B6).
  apply Forall_forall. intros x Hx. apply in_app_iff in Hx.
  destruct Hx as [Hx | Hx].
  - apply selected_reasons_among in Hx.
    destruct Hx as [-> | [-> | ->]]; assumption.
  - apply selected_flags_among in Hx.
    destruct Hx as [-> | [-> | ->]]; assumption.
Qed.

Lemma report_bullets_whole_witness :
  complete timid_input = true
  /\ exists r,
      compute_results timid_input = OK r
      /\ Forall drawn_whole (alt_forced_zero_reasons r ++ flags r).
Proof.
  split; [reflexivity |].
  apply (report_bullets_whole timid_input). reflexivity.
Defined.
